(** * Verification of ST-Manager's forum tag core

    Shallow embedding of [src/core/automation/forum_tag_fetcher.py]
    (the HTML tag scanner [NaobaijinTagParser], the URL check and two-attempt
    fetch of [ForumTagFetcher], and [TagProcessor]) and of the two automation
    hooks of [src/core/services/automation_service.py].

    Python [str] values are modelled as [string]s whose characters are the
    code points 0..255 (one [ascii] per code point). *)

From Stdlib Require Import String Ascii ZArith List Bool.
From stdpp Require Import base list gmap strings.
Import ListNotations.
Open Scope string_scope.
Set Warnings "-register-all".

(* ------------------------------------------------------------------ *)
(** ** Python string primitives *)

Module PyStr.

(** [str.isspace] on one code point below 256: 9..13, 28..32, 0x85, 0xA0.
    This is also the class matched by [\s] in a [str] regular expression. *)
Definition is_space (c : ascii) : bool :=
  let n := nat_of_ascii c in
  ((9 <=? n) && (n <=? 13))%nat || ((28 <=? n) && (n <=? 32))%nat
  || (n =? 133)%nat || (n =? 160)%nat.

(** [s.lstrip()] *)
Fixpoint lstrip (s : string) : string :=
  match s with
  | EmptyString => EmptyString
  | String c r => if is_space c then lstrip r else s
  end.

Fixpoint rev_str (s : string) (acc : string) : string :=
  match s with
  | EmptyString => acc
  | String c r => rev_str r (String c acc)
  end.

(** [s.strip()]: strip whitespace on both sides. *)
Definition strip (s : string) : string :=
  rev_str (lstrip (rev_str (lstrip s) EmptyString)) EmptyString.

(** [s.startswith(p)] *)
Definition startswith (p s : string) : bool := String.prefix p s.

(** [sub in s] *)
Fixpoint contains (sub s : string) : bool :=
  String.prefix sub s ||
  match s with
  | EmptyString => false
  | String _ r => contains sub r
  end.

(** [''.join(parts)] *)
Definition join (parts : list string) : string := String.concat "" parts.

(** [x in xs] for a list of strings *)
Definition mem (x : string) (xs : list string) : bool :=
  existsb (String.eqb x) xs.

End PyStr.

(* ------------------------------------------------------------------ *)
(** ** [NaobaijinTagParser]: the streaming tag scanner *)

Module Scanner.
Import PyStr.

(** The callbacks [HTMLParser] makes on this parser.  A self-closing
    [<div/>] is delivered by [handle_startendtag] as a start then an end
    event; comments, declarations and the like reach no override of this
    class and do nothing.  An attribute without a value has value [None]. *)
Inductive event :=
| StartTag (tag : string) (attrs : list (string * option string))
| EndTag (tag : string)
| Data (data : string).

Record parser := mkParser {
  tags : list string;
  in_tag_pill : bool;
  current_tag_text : list string;
  div_depth : Z;
  expecting_text : bool;
  in_main_tags_container : bool;
  main_container_depth : Z
}.

(** [NaobaijinTagParser.__init__] *)
Definition init : parser := mkParser [] false [] 0 false false 0.

(** [dict(attrs).get('class', '')]: the last binding of a key wins in
    [dict]; [None] is a valueless attribute, [Some ""] the default. *)
Fixpoint dict_get_class (attrs : list (string * option string)) (dflt : option string)
  : option string :=
  match attrs with
  | [] => dflt
  | (k, v) :: r => dict_get_class r (if String.eqb k "class" then v else dflt)
  end.

(** [re.compile(r'pill_a2c9e8\s+small_a2c9e8').search(s)]: [s] has a
    position where [pill_a2c9e8] is followed by one or more whitespace
    characters and then [small_a2c9e8].  The character after the spaces,
    ['s'], is not a space, so trying the maximal run of spaces is exact. *)
Fixpoint drop_spaces (s : string) : string :=
  match s with
  | String c r => if is_space c then drop_spaces r else s
  | EmptyString => EmptyString
  end.

Definition match_after_pill (r : string) : bool :=
  match r with
  | String c _ => is_space c && String.prefix "small_a2c9e8" (drop_spaces r)
  | EmptyString => false
  end.

Fixpoint tag_class_search (s : string) : bool :=
  (String.prefix "pill_a2c9e8" s
   && match_after_pill (String.substring 11 (String.length s) s))
  || match s with
     | EmptyString => false
     | String _ r => tag_class_search r
     end.

(** The body of [handle_starttag] for a [div] once [class_attr] is a
    string. *)
Definition div_open (class_attr : string) (p : parser) : parser :=
  (* container bookkeeping *)
  let '(in_main, mdepth) :=
    if contains "tags_e5a45e" class_attr then (true, 1%Z)
    else if in_main_tags_container p then (true, (main_container_depth p + 1)%Z)
    else (in_main_tags_container p, main_container_depth p) in
  let p := mkParser (tags p) (in_tag_pill p) (current_tag_text p) (div_depth p)
             (expecting_text p) in_main mdepth in
  if in_main then
    if tag_class_search class_attr then
      if negb (contains "defaultColor__4bd52" class_attr) then
        mkParser (tags p) true [] 1 true in_main mdepth
      else p
    else if in_tag_pill p then
      let exp := if expecting_text p && contains "lineClamp1__4bd52" class_attr
                 then false else expecting_text p in
      mkParser (tags p) true (current_tag_text p) (div_depth p + 1) exp in_main mdepth
    else p
  else p.

(** [handle_starttag]; [None] when it raises ([TypeError] from
    ['tags_e5a45e' in None] on a valueless [class] attribute). *)
Definition handle_starttag (tag : string) (attrs : list (string * option string))
  (p : parser) : option parser :=
  if String.eqb tag "div" then
    match dict_get_class attrs (Some "") with
    | None => None
    | Some class_attr => Some (div_open class_attr p)
    end
  else Some p.

(** Finishing a pill: [tag_text = ''.join(...).strip()] and the guarded
    append. *)
Definition finish_pill (p : parser) : list string :=
  let tag_text := strip (join (current_tag_text p)) in
  if negb (String.eqb tag_text "") && negb (startswith "+" tag_text)
     && negb (mem tag_text (tags p))
  then tags p ++ [tag_text] else tags p.

(** [handle_endtag] *)
Definition handle_endtag (tag : string) (p : parser) : parser :=
  if String.eqb tag "div" then
    let '(in_main, mdepth) :=
      if in_main_tags_container p then
        let d := (main_container_depth p - 1)%Z in
        (if Z.eqb d 0 then false else true, d)
      else (false, main_container_depth p) in
    if in_tag_pill p then
      let dd := (div_depth p - 1)%Z in
      if Z.eqb dd 0 then
        mkParser (finish_pill p) false [] dd (expecting_text p) in_main mdepth
      else
        mkParser (tags p) true (current_tag_text p) dd (expecting_text p) in_main mdepth
    else
      mkParser (tags p) false (current_tag_text p) (div_depth p) (expecting_text p)
        in_main mdepth
  else p.

(** [handle_data] *)
Definition handle_data (data : string) (p : parser) : parser :=
  if in_tag_pill p then
    mkParser (tags p) true (current_tag_text p ++ [data]) (div_depth p)
      (expecting_text p) (in_main_tags_container p) (main_container_depth p)
  else p.

Definition step (e : event) (p : parser) : option parser :=
  match e with
  | StartTag t a => handle_starttag t a p
  | EndTag t => Some (handle_endtag t p)
  | Data d => Some (handle_data d p)
  end.

(** Feeding a document's events; [None] once a callback raised. *)
Fixpoint run (p : parser) (evs : list event) : option parser :=
  match evs with
  | [] => Some p
  | e :: r => match step e p with
              | Some p' => run p' r
              | None => None
              end
  end.

(** The tags of a scanned document ([parser.tags]) or the exception. *)
Definition scan (evs : list event) : option (list string) :=
  option_map tags (run init evs).

End Scanner.

(* ------------------------------------------------------------------ *)
(** ** [ForumTagFetcher] *)

Module Fetcher.
Import PyStr.

(** [str.lower()] on code points below 256. *)
Definition lower_char (c : ascii) : ascii :=
  let n := nat_of_ascii c in
  if ((65 <=? n) && (n <=? 90))%nat || ((192 <=? n) && (n <=? 222) && negb (n =? 215))%nat
  then ascii_of_nat (n + 32) else c.

Fixpoint lower (s : string) : string :=
  match s with
  | EmptyString => EmptyString
  | String c r => String (lower_char c) (lower r)
  end.

(** [s.endswith(d)] *)
Definition endswith (d s : string) : bool :=
  String.prefix (rev_str d EmptyString) (rev_str s EmptyString).

(** [ForumTagFetcher.NAOBAIJIN_DOMAINS] *)
Definition NAOBAIJIN_DOMAINS : list string := ["naobaijin.app"; "www.naobaijin.app"].

Fixpoint lstrip_c0 (s : string) : string :=
  match s with
  | String c r => if (nat_of_ascii c <=? 32)%nat then lstrip_c0 r else s
  | EmptyString => EmptyString
  end.

(** [url.replace(b, "")] for each of ['\t', '\r', '\n'] *)
Fixpoint remove_unsafe (s : string) : string :=
  match s with
  | String c r =>
      let n := nat_of_ascii c in
      if (n =? 9)%nat || (n =? 13)%nat || (n =? 10)%nat then remove_unsafe r
      else String c (remove_unsafe r)
  | EmptyString => EmptyString
  end.

Definition is_alpha (c : ascii) : bool :=
  let n := nat_of_ascii c in
  ((65 <=? n) && (n <=? 90))%nat || ((97 <=? n) && (n <=? 122))%nat.

Definition is_scheme_char (c : ascii) : bool :=
  let n := nat_of_ascii c in
  is_alpha c || ((48 <=? n) && (n <=? 57))%nat || (n =? 43)%nat || (n =? 45)%nat
  || (n =? 46)%nat.

(** [url.find(':')] as the part before and after the first colon. *)
Fixpoint split_colon (s : string) : option (string * string) :=
  match s with
  | EmptyString => None
  | String c r =>
      if Ascii.eqb c ":" then Some (EmptyString, r)
      else match split_colon r with
           | Some (a, b) => Some (String c a, b)
           | None => None
           end
  end.

(** [_splitnetloc(url, 2)]'s netloc: up to the first of ['/', '?', '#']. *)
Fixpoint take_netloc (s : string) : string :=
  match s with
  | String c r =>
      if Ascii.eqb c "/" || Ascii.eqb c "?" || Ascii.eqb c "#" then EmptyString
      else String c (take_netloc r)
  | EmptyString => EmptyString
  end.

Definition has_char (c : ascii) (s : string) : bool := contains (String c EmptyString) s.

Fixpoint is_ascii_str (s : string) : bool :=
  match s with
  | String c r => (nat_of_ascii c <? 128)%nat && is_ascii_str r
  | EmptyString => true
  end.

Section UrlParse.
(** Two checks of [urllib.parse.urlsplit] (CPython 3.12) that delegate to
    the [ipaddress] and [unicodedata] modules: [_check_bracketed_netloc]
    (passes on a netloc with a well-formed bracketed IP literal) and the
    NFKC test of [_checknetloc] on a non-ASCII netloc.  Each either passes
    ([true]) or raises [ValueError] ([false]). *)
Variable check_bracketed_netloc : string -> bool.
Variable checknetloc_nfkc : string -> bool.

(** [urlparse(url).netloc]; [None] when [urlsplit] raises [ValueError]. *)
Definition urlparse_netloc (url0 : string) : option string :=
  let url1 := remove_unsafe (lstrip_c0 url0) in
  let url2 :=
    match url1, split_colon url1 with
    | String c0 _, Some (sch, rest) =>
        if is_alpha c0 && forallb is_scheme_char (list_ascii_of_string sch)
        then rest else url1
    | _, _ => url1
    end in
  if String.prefix "//" url2 then
    let netloc := take_netloc (String.substring 2 (String.length url2) url2) in
    let lb := has_char "[" netloc in
    let rb := has_char "]" netloc in
    if (lb && negb rb) || (rb && negb lb) then None
    else if (lb && rb) && negb (check_bracketed_netloc netloc) then None
    else if is_ascii_str netloc || checknetloc_nfkc netloc then Some netloc
    else None
  else
    (* no authority component: the netloc is empty *)
    Some EmptyString.

(** [ForumTagFetcher.is_valid_naobaijin_url] *)
Definition is_valid_naobaijin_url (url : string) : bool :=
  if String.eqb url "" then false
  else match urlparse_netloc url with
       | None => false
       | Some netloc =>
           let domain := lower netloc in
           existsb (fun d => endswith d domain) NAOBAIJIN_DOMAINS
       end.

End UrlParse.

(** What [self.session.get(url, timeout=...)] yields: a response, whose
    [raise_for_status()] raises with the message in [status_error] on a
    4xx/5xx status, or a [RequestException] with its message. *)
Inductive http_result :=
| HttpResponse (status_error : option string) (text : string)
| HttpFailure (msg : string).

(** The result dictionary of [fetch_tags]. *)
Record fetch_result := mkResult {
  success : bool;
  rtags : list string;
  error : option string;
  title : option string
}.

Definition MSG_INVALID_URL : string := "无效的类脑论坛URL".
Definition MSG_NO_TAGS : string := "未找到标签".
Definition MSG_NOT_FOUND : string := "未找到标签信息，帖子可能需要登录或页面格式不符".
(** [str(e)] of the [TypeError] the scanner raises on a valueless class. *)
Definition MSG_SCAN_ERROR : string := "argument of type 'NoneType' is not iterable".

(** Python truthiness of a [list] or [None]. *)
Definition truthy_tags (t : option (list string)) : bool :=
  match t with Some (_ :: _) => true | _ => false end.

(** [a or b] on two values that are each a [str] or [None]. *)
Definition py_or (a b : option string) : option string :=
  match a with
  | Some s => if String.eqb s "" then b else a
  | None => b
  end.

(** [url.rstrip('/')] *)
Fixpoint drop_slashes (s : string) : string :=
  match s with
  | String c r => if Ascii.eqb c "/" then drop_slashes r else s
  | EmptyString => EmptyString
  end.

Definition rstrip_slash (s : string) : string :=
  rev_str (drop_slashes (rev_str s EmptyString)) EmptyString.

Section Fetch.
Variable check_bracketed_netloc : string -> bool.
Variable checknetloc_nfkc : string -> bool.
(** The network: the outcome of a GET of each URL. *)
Variable http_get : string -> http_result.
(** [HTMLParser.feed(text); close()]: the callbacks made on the parser. *)
Variable html_events : string -> list Scanner.event.
(** [ForumTagFetcher._extract_title]: a [str] or [None]. *)
Variable extract_title : string -> option string.

(** [ForumTagFetcher._try_fetch]: [(tags, title, error)]. *)
Definition try_fetch (url : string)
  : option (list string) * option string * option string :=
  match http_get url with
  | HttpFailure msg => (None, None, Some msg)
  | HttpResponse (Some msg) _ => (None, None, Some msg)
  | HttpResponse None text =>
      match Scanner.scan (html_events text) with
      | None => (None, None, Some MSG_SCAN_ERROR)
      | Some tags =>
          let ttl := extract_title text in
          if truthy_tags (Some tags) then (Some tags, ttl, None)
          else (None, ttl, Some MSG_NO_TAGS)
      end
  end.

(** [ForumTagFetcher.fetch_tags], with the list of URLs it requested, in
    order. *)
Definition fetch_tags (url : string) : fetch_result * list string :=
  if negb (is_valid_naobaijin_url check_bracketed_netloc checknetloc_nfkc url) then
    (mkResult false [] (Some MSG_INVALID_URL) None, [])
  else
    let url := rstrip_slash url in
    let first_page_url := String.append url "/0" in
    let '(tags, ttl, _) := try_fetch first_page_url in
    match tags with
    | Some ((_ :: _) as ts) => (mkResult true ts None ttl, [first_page_url])
    | _ =>
        let '(tags2, ttl2, _) := try_fetch url in
        match tags2 with
        | Some ((_ :: _) as ts) =>
            (mkResult true ts None (py_or ttl2 ttl), [first_page_url; url])
        | _ =>
            (mkResult false [] (Some MSG_NOT_FOUND) (py_or ttl ttl2),
             [first_page_url; url])
        end
    end.

End Fetch.

End Fetcher.

(* ------------------------------------------------------------------ *)
(** ** [TagProcessor] *)

Module TagProcessor.
Import PyStr.

Record tag_processor := mkProcessor {
  exclude_tags : gset string;
  replace_rules : gmap string string
}.

(** [TagProcessor.__init__(exclude_tags, replace_rules)] *)
Definition make (exclude : list string) (rules : gmap string string) : tag_processor :=
  mkProcessor (list_to_set exclude) rules.

(** One iteration of the loop of [process]. *)
Definition process_step (tp : tag_processor) (result : list string) (tag : string)
  : list string :=
  if decide (tag ∈ exclude_tags tp) then result
  else
    let processed_tag := default tag (replace_rules tp !! tag) in
    if mem processed_tag result then result else result ++ [processed_tag].

(** [TagProcessor.process] *)
Definition process (tp : tag_processor) (tags : list string) : list string :=
  fold_left (process_step tp) tags [].

(** [TagProcessor.merge_tags]; an absent [existing_tags] is [[]]. *)
Definition merge_tags (existing_tags new_tags : list string) (mode : string)
  : list string :=
  if String.eqb mode "replace" then new_tags
  else fold_left (fun merged tag => if mem tag merged then merged else (merged ++ [tag])%list)
         new_tags existing_tags.

End TagProcessor.

(* ------------------------------------------------------------------ *)
(** ** The automation hooks of [automation_service.py] *)

Module Automation.

(** Python values flowing through the hooks (rule actions, configuration,
    card records, results).  Dictionary keys are strings. *)
Inductive pyval :=
| PNone
| PBool (b : bool)
| PInt (z : Z)
| PStr (s : string)
| PList (l : list pyval)
| PDict (kv : list (string * pyval)).

(** A raised Python exception: whether its class derives from [Exception]
    (not only from [BaseException], as [KeyboardInterrupt], [SystemExit] and
    [GeneratorExit] do), and what [str(e)] does: return a string, or raise
    another exception. *)
Inductive exn := Exn (is_Exception : bool) (str_of : string + exn).

Definition exn_is_Exception (e : exn) : bool := let '(Exn b _) := e in b.
Definition exn_str (e : exn) : string + exn := let '(Exn _ s) := e in s.

(** Caught by [except Exception as e] and then formatted without raising. *)
Definition catchable (e : exn) : bool :=
  exn_is_Exception e && match exn_str e with inl _ => true | inr _ => false end.

Definition TypeError : exn := Exn true (inl "TypeError").
Definition KeyError (k : string) : exn := Exn true (inl k).
Definition AttributeError : exn := Exn true (inl "AttributeError").

Inductive result (A : Type) := Ok (a : A) | Raise (e : exn).
Arguments Ok {A} a.
Arguments Raise {A} e.

(** [exec_plan]; the two sets are kept as lists of distinct elements. *)
Record exec_plan := mkPlan {
  move : pyval;
  add_tags : list pyval;
  remove_tags : list pyval;
  favorite : pyval;
  fetch_forum_tags : pyval
}.

Definition empty_plan : exec_plan := mkPlan PNone [] [] PNone PNone.

(** One call [executor.apply_plan(card_id, exec_plan, ui_data)]. *)
Record exec_call := mkCall {
  call_card : string;
  call_plan : exec_plan;
  call_ui : list (string * pyval)
}.

(** The hooks run in a state and exception monad whose state is the list
    of executor calls made so far. *)
Definition M (A : Type) : Type := list exec_call -> result A * list exec_call.

Global Instance M_ret : MRet M := fun A a st => (Ok a, st).
Global Instance M_bind : MBind M := fun A B f m st =>
  match m st with
  | (Ok a, st') => f a st'
  | (Raise e, st') => (Raise e, st')
  end.

Definition lift {A} (r : result A) : M A := fun st => (r, st).

(** [try: body  except Exception as e: logger.error(f"...{e}"); return None] *)
Definition try_except_none {A} (body : M (option A)) : M (option A) := fun st =>
  match body st with
  | (Ok a, st') => (Ok a, st')
  | (Raise e, st') =>
      if exn_is_Exception e then
        match exn_str e with
        | inl _ => (Ok None, st')
        | inr e' => (Raise e', st')
        end
      else (Raise e, st')
  end.

(** *** Python built-ins used by the hooks *)

Fixpoint dict_lookup (kv : list (string * pyval)) (k : string) : option pyval :=
  match kv with
  | [] => None
  | (k', v) :: r => if String.eqb k' k then Some v else dict_lookup r k
  end.

(** [d.get(k, default)] on a dict *)
Definition dict_get (kv : list (string * pyval)) (k : string) (dflt : pyval) : pyval :=
  match dict_lookup kv k with Some v => v | None => dflt end.

(** [d[k] = v] *)
Fixpoint dict_set (kv : list (string * pyval)) (k : string) (v : pyval)
  : list (string * pyval) :=
  match kv with
  | [] => [(k, v)]
  | (k', v') :: r => if String.eqb k' k then (k', v) :: r else (k', v') :: dict_set r k v
  end.

(** [x.get(k, default)] on any value: only dicts have [.get]. *)
Definition py_get_method (x : pyval) (k : string) (dflt : pyval) : result pyval :=
  match x with
  | PDict kv => Ok (dict_get kv k dflt)
  | _ => Raise AttributeError
  end.

(** [x[k]] with a string key *)
Definition py_getitem (x : pyval) (k : string) : result pyval :=
  match x with
  | PDict kv => match dict_lookup kv k with Some v => Ok v | None => Raise (KeyError k) end
  | _ => Raise TypeError
  end.

(** [bool(x)] *)
Definition truthy (x : pyval) : bool :=
  match x with
  | PNone => false
  | PBool b => b
  | PInt z => negb (Z.eqb z 0)
  | PStr s => negb (String.eqb s "")
  | PList l => match l with [] => false | _ => true end
  | PDict kv => match kv with [] => false | _ => true end
  end.

(** The elements [for act in x] visits. *)
Definition py_iter (x : pyval) : result (list pyval) :=
  match x with
  | PList l => Ok l
  | PDict kv => Ok (map (fun '(k, _) => PStr k) kv)
  | PStr s => Ok (map (fun c => PStr (String c EmptyString)) (list_ascii_of_string s))
  | _ => Raise TypeError
  end.

(** [x == s] for a string [s] *)
Definition eq_str (x : pyval) (s : string) : bool :=
  match x with PStr s' => String.eqb s' s | _ => false end.

(** [isinstance(x, dict)] *)
Definition is_dict (x : pyval) : bool := match x with PDict _ => true | _ => false end.

(** [str(v).lower() == 'true'] *)
Definition str_lower_is_true (v : pyval) : bool :=
  match v with
  | PBool b => b
  | PStr s => String.eqb (Fetcher.lower s) "true"
  | _ => false
  end.

(** Equality of hashable values ([True == 1], [False == 0]). *)
Definition hash_key (x : pyval) : option (Z + string + unit) :=
  match x with
  | PNone => Some (inr tt)
  | PBool b => Some (inl (inl (if b then 1 else 0)%Z))
  | PInt z => Some (inl (inl z))
  | PStr s => Some (inl (inr s))
  | _ => None
  end.

(** [s.add(v)] on a set kept as a list of distinct elements *)
Definition set_add (s : list pyval) (v : pyval) : result (list pyval) :=
  match hash_key v with
  | None => Raise TypeError
  | Some k =>
      if existsb (fun y => if decide (hash_key y = Some k) then true else false) s
      then Ok s else Ok (s ++ [v])%list
  end.

(** The external collaborators: [load_config], [rule_manager.get_ruleset],
    [ctx.cache.id_map.get], [load_ui_data], [resolve_ui_key],
    [engine.evaluate] and [executor.apply_plan].  Each returns a value of
    the shape the hooks use or raises.  (A value of another shape makes the
    hooks' own operations raise an [Exception] subclass, which the hooks
    treat as any other [Exception].) *)
Record collaborators := mkCollab {
  load_config : result (list (string * pyval));
  get_ruleset : pyval -> result pyval;
  cache_get : string -> result (option (list (string * pyval)));
  load_ui_data : result (list (string * pyval));
  resolve_ui_key : string -> result string;
  evaluate : list (string * pyval) -> pyval -> bool -> result pyval;
  apply_plan : string -> exec_plan -> list (string * pyval) -> result pyval
}.

Definition run_dict (extra : list (string * pyval)) : pyval :=
  PDict (("run", PBool true) :: extra).

Section Hooks.
Variable c : collaborators.
(** [core.automation.constants.ACT_FETCH_FORUM_TAGS] *)
Variable ACT_FETCH_FORUM_TAGS : string.

(** [executor.apply_plan(...)], recorded in the trace *)
Definition call_apply_plan (card_id : string) (plan : exec_plan)
  (ui_data : list (string * pyval)) : M pyval := fun st =>
  (apply_plan c card_id plan ui_data, st ++ [mkCall card_id plan ui_data])%list.

(** Setup shared by both hooks, up to [plan_raw['actions']]: [None] for an
    early [return None], otherwise the actions and the UI data. *)
Definition prepare (card_id : string)
  : M (option (pyval * list (string * pyval))) :=
  cfg ← lift (load_config c);
  let active_id := dict_get cfg "active_automation_ruleset" PNone in
  if negb (truthy active_id) then mret None else
  ruleset ← lift (get_ruleset c active_id);
  if negb (truthy ruleset) then mret None else
  card_obj ← lift (cache_get c card_id);
  match card_obj with
  | None | Some [] => mret None
  | Some card =>
      ui_data ← lift (load_ui_data c);
      let context_data := card in
      ui_key ← lift (resolve_ui_key c card_id);
      let ui_info := dict_get ui_data ui_key (PDict []) in
      summary ← lift (py_get_method ui_info "summary" (PStr ""));
      let context_data := dict_set context_data "ui_summary" summary in
      plan_raw ← lift (evaluate c context_data ruleset true);
      actions ← lift (py_getitem plan_raw "actions");
      mret (Some (actions, ui_data))
  end.

(** The loop of [auto_run_rules_on_card] turning actions into a plan. *)
Fixpoint build_plan (acts : list pyval) (plan : exec_plan) : result exec_plan :=
  match acts with
  | [] => Ok plan
  | act :: rest =>
      match py_getitem act "type", py_getitem act "value" with
      | Raise e, _ => Raise e
      | Ok _, Raise e => Raise e
      | Ok t, Ok v =>
          let next :=
            if eq_str t "move_folder" then
              Ok (mkPlan v (add_tags plan) (remove_tags plan) (favorite plan)
                    (fetch_forum_tags plan))
            else if eq_str t "add_tag" then
              match set_add (add_tags plan) v with
              | Ok s => Ok (mkPlan (move plan) s (remove_tags plan) (favorite plan)
                              (fetch_forum_tags plan))
              | Raise e => Raise e
              end
            else if eq_str t "remove_tag" then
              match set_add (remove_tags plan) v with
              | Ok s => Ok (mkPlan (move plan) (add_tags plan) s (favorite plan)
                              (fetch_forum_tags plan))
              | Raise e => Raise e
              end
            else if eq_str t "set_favorite" then
              Ok (mkPlan (move plan) (add_tags plan) (remove_tags plan)
                    (PBool (str_lower_is_true v)) (fetch_forum_tags plan))
            else (* ACT_FETCH_FORUM_TAGS: continue; other types: nothing *)
              Ok plan in
          match next with
          | Ok plan' => build_plan rest plan'
          | Raise e => Raise e
          end
      end
  end.

(** The body of [auto_run_rules_on_card], inside its [try]. *)
Definition rules_body (card_id : string) : M (option pyval) :=
  pre ← prepare card_id;
  match pre with
  | None => mret None
  | Some (actions, ui_data) =>
      if negb (truthy actions) then mret (Some (run_dict [("actions", PInt 0)])) else
      acts ← lift (py_iter actions);
      exec_plan ← lift (build_plan acts empty_plan);
      res ← call_apply_plan card_id exec_plan ui_data;
      mret (Some (run_dict [("result", res)]))
  end.

(** [auto_run_rules_on_card] *)
Definition auto_run_rules_on_card (card_id : string) : M (option pyval) :=
  try_except_none (rules_body card_id).

(** The loop of [auto_run_forum_tags_on_link_update] with its [break]:
    the [fetch_forum_tags_config] it leaves ([None] when no action has the
    type). *)
Fixpoint find_fetch_config (acts : list pyval) : result (option pyval) :=
  match acts with
  | [] => Ok None
  | act :: rest =>
      match py_getitem act "type" with
      | Raise e => Raise e
      | Ok t =>
          if eq_str t ACT_FETCH_FORUM_TAGS then
            match py_getitem act "value" with
            | Raise e => Raise e
            | Ok v => Ok (Some (if is_dict v then v else PDict []))
            end
          else find_fetch_config rest
      end
  end.

Definition fetch_only_plan (cfg : pyval) : exec_plan := mkPlan PNone [] [] PNone cfg.

Definition no_fetch_result : pyval :=
  run_dict [("actions", PInt 0); ("reason", PStr "no_fetch_forum_tags_action")].

(** The body of [auto_run_forum_tags_on_link_update], inside its [try]. *)
Definition link_body (card_id : string) : M (option pyval) :=
  pre ← prepare card_id;
  match pre with
  | None => mret None
  | Some (actions, ui_data) =>
      if negb (truthy actions) then mret (Some (run_dict [("actions", PInt 0)])) else
      acts ← lift (py_iter actions);
      fetch_forum_tags_config ← lift (find_fetch_config acts);
      (* [if not fetch_forum_tags_config] *)
      let present := match fetch_forum_tags_config with
                     | Some v => truthy v | None => false end in
      if negb present then mret (Some no_fetch_result) else
      let cfgv := default PNone fetch_forum_tags_config in
      res ← call_apply_plan card_id (fetch_only_plan cfgv) ui_data;
      mret (Some (run_dict [("result", res)]))
  end.

(** [auto_run_forum_tags_on_link_update] *)
Definition auto_run_forum_tags_on_link_update (card_id : string) : M (option pyval) :=
  try_except_none (link_body card_id).

End Hooks.

End Automation.

(* ------------------------------------------------------------------ *)
(** ** [ForumTagFetcher._extract_title] *)

Module Title.
Import PyStr.

(** The three patterns tried in order, each searched with
    [re.IGNORECASE | re.DOTALL]:
    [<title[^>]*>(.*?)</title>],
    [<meta[^>]*property=Qog:titleQ[^>]*content=Q(...)Q] with the group
    [[^Q]*] (Q a double quote) and
    [<h1[^>]*>(.*?)</h1>]. *)
Inductive title_pattern := PTitle | PMetaOgTitle | PH1.

Definition patterns : list title_pattern := [PTitle; PMetaOgTitle; PH1].

(** [re.sub(r'<[^>]+>', '', s)]: scanning left to right, a ['<'] followed
    by at least one character other than ['>'] and then a ['>'] is removed
    (['<'] itself is not ['>'], so a tag runs to the first ['>']); a ['<']
    with no closing ['>'] after it stays, and so does ["<>"].  [pending]
    holds the text from an unclosed ['<'] read so far. *)
Fixpoint sub_tags_aux (pending : option string) (s : string) : string :=
  match s with
  | EmptyString => match pending with None => EmptyString | Some b => b end
  | String c r =>
      match pending with
      | None =>
          if Ascii.eqb c "<" then sub_tags_aux (Some "<") r
          else String c (sub_tags_aux None r)
      | Some b =>
          if Ascii.eqb c ">" then
            if String.eqb b "<" then String.append "<>" (sub_tags_aux None r)
            else sub_tags_aux None r
          else sub_tags_aux (Some (String.append b (String c EmptyString))) r
      end
  end.

Definition sub_tags (s : string) : string := sub_tags_aux None s.

(** [s.replace(old, new)] for a non-empty [old]: non-overlapping
    occurrences, left to right; [skip] counts the characters of an
    occurrence already replaced. *)
Fixpoint replace_aux (old new : string) (skip : nat) (s : string) : string :=
  match s with
  | EmptyString => EmptyString
  | String c r =>
      match skip with
      | S k => replace_aux old new k r
      | O =>
          if String.prefix old s
          then String.append new (replace_aux old new (String.length old - 1) r)
          else String c (replace_aux old new 0 r)
      end
  end.

Definition replace (old new s : string) : string := replace_aux old new 0 s.

(** The body of the loop for one match, [group(1)] given. *)
Definition clean (group1 : string) : string :=
  let title := strip group1 in
  let title := sub_tags title in
  replace "&gt;" ">" (replace "&lt;" "<" (replace "&amp;" "&"
    (replace "&quot;" (String (ascii_of_nat 34) EmptyString) title))).

Section Extract.
(** [re.search(pattern, html, re.IGNORECASE | re.DOTALL)]: [group(1)] of
    the first match, [None] without a match. *)
Variable re_search : title_pattern -> string -> option string.

Fixpoint first_title (pats : list title_pattern) (html : string) : option string :=
  match pats with
  | [] => None
  | p :: rest =>
      match re_search p html with
      | Some g =>
          let title := clean g in
          if String.eqb title "" then first_title rest html else Some title
      | None => first_title rest html
      end
  end.

(** [ForumTagFetcher._extract_title] *)
Definition extract_title (html : string) : option string := first_title patterns html.

End Extract.

End Title.

(* ================================================================== *)
(** * Properties *)

(* ------------------------------------------------------------------ *)
(** ** The scanner *)

Module ScannerFacts.
Import PyStr Scanner.

Definition pill_attrs : list (string * option string) :=
  [("class", Some "pill_a2c9e8 small_a2c9e8 tagPill__9a337")].

(** A scanner inside the main container and inside a pill of depth 1. *)
Definition in_pill_state : parser := mkParser [] true [] 1 true true 2.

(** C1 (as stated): while IN_PILL every div open increments the pill's
    depth.  A second pill-classed div inside the pill restarts it at 1. *)
Lemma C1_pill_reentry_resets_depth :
  ~ (forall (p p' : parser) attrs,
        in_tag_pill p = true ->
        handle_starttag "div" attrs p = Some p' ->
        div_depth p' = (div_depth p + 1)%Z).
Proof.
  intros H.
  specialize (H in_pill_state (mkParser [] true [] 1 true true 3) pill_attrs
                eq_refl eq_refl).
  discriminate H.
Qed.

Lemma div_open_tags (c : string) (p : parser) : tags (div_open c p) = tags p.
Proof.
  unfold div_open.
  destruct (contains "tags_e5a45e" c), (in_main_tags_container p),
    (tag_class_search c), (contains "defaultColor__4bd52" c), (in_tag_pill p);
    reflexivity.
Qed.

(** C1 (amended): a div open inside the main container whose class matches
    the pill pattern and lacks the count-badge marker enters IN_PILL at
    depth 1 with an empty buffer, whether or not a pill is already open;
    while IN_PILL, a div open inside the main container whose class does not
    match the pill pattern increments the depth by 1; every div close while
    IN_PILL decrements it, and at 0 the trimmed text is appended exactly when
    it is non-empty, does not start with "+" and is not yet in the result,
    and the scanner leaves IN_PILL with an empty buffer. *)
Theorem C1_pill_transitions (p : parser) (attrs : list (string * option string))
  (class_attr : string) :
  dict_get_class attrs (Some "") = Some class_attr ->
  exists p', handle_starttag "div" attrs p = Some p' /\
    (in_main_tags_container p' = true -> tag_class_search class_attr = true ->
     contains "defaultColor__4bd52" class_attr = false ->
     in_tag_pill p' = true /\ div_depth p' = 1%Z /\ current_tag_text p' = [] /\
     tags p' = tags p) /\
    (in_main_tags_container p' = true -> tag_class_search class_attr = false ->
     in_tag_pill p = true ->
     in_tag_pill p' = true /\ div_depth p' = (div_depth p + 1)%Z /\
     current_tag_text p' = current_tag_text p /\ tags p' = tags p) /\
    (in_tag_pill p = false -> in_tag_pill p' = true ->
     in_main_tags_container p' = true /\ tag_class_search class_attr = true /\
     contains "defaultColor__4bd52" class_attr = false) /\
    (in_tag_pill p = true ->
     let q := handle_endtag "div" p in
     let tag_text := strip (join (current_tag_text p)) in
     div_depth q = (div_depth p - 1)%Z /\
     (div_depth q = 0%Z ->
      in_tag_pill q = false /\ current_tag_text q = [] /\
      tags q = (if negb (String.eqb tag_text "") && negb (startswith "+" tag_text)
                   && negb (mem tag_text (tags p))
                then (tags p ++ [tag_text])%list else tags p)) /\
     (div_depth q <> 0%Z ->
      in_tag_pill q = true /\ current_tag_text q = current_tag_text p /\
      tags q = tags p)).
Proof.
  intros Hc. exists (div_open class_attr p).
  unfold handle_starttag. rewrite Hc. simpl.
  split; [reflexivity|].
  destruct p as [tg pill txt dd exp inm md]; simpl.
  unfold div_open; simpl.
  destruct (contains "tags_e5a45e" class_attr) eqn:Ht;
  destruct inm eqn:Hm;
  destruct (tag_class_search class_attr) eqn:Hs;
  destruct (contains "defaultColor__4bd52" class_attr) eqn:Hd;
  destruct pill eqn:Hp;
  simpl; repeat split; intros; try discriminate; try reflexivity;
  unfold handle_endtag in *; simpl in *;
  repeat match goal with
  | |- context [Z.eqb ?a ?b] => destruct (Z.eqb_spec a b)
  | H : context [Z.eqb ?a ?b] |- _ => destruct (Z.eqb_spec a b)
  end; simpl in *; try reflexivity; try lia; auto.
Qed.

Lemma C1_pill_transitions_witness :
  exists p', handle_starttag "div" pill_attrs in_pill_state = Some p' /\
    in_tag_pill p' = true /\ div_depth p' = 1%Z /\ current_tag_text p' = [].
Proof.
  destruct (C1_pill_transitions in_pill_state pill_attrs
              "pill_a2c9e8 small_a2c9e8 tagPill__9a337" eq_refl)
    as [p' [Hp' [H1 _]]].
  exists p'. split; [exact Hp'|].
  unfold handle_starttag in Hp'. simpl in Hp'. injection Hp' as <-.
  destruct H1 as [H1 [H2 [H3 _]]]; try reflexivity.
  split; [exact H1|]. split; [exact H2|exact H3].
Defined.

(** A scanner inside the main container at depth 2, outside any pill. *)
Definition in_main_state : parser := mkParser [] false [] 0 false true 2.

Definition main_attrs : list (string * option string) :=
  [("class", Some "tags_e5a45e")].

(** C5 (as stated): every div open while IN_MAIN_CONTAINER, also one whose
    class again holds the container marker, increments the depth.  A nested
    marker div restarts the depth at 1. *)
Lemma C5_container_reentry_resets_depth :
  ~ (forall (p p' : parser) attrs,
        in_main_tags_container p = true ->
        handle_starttag "div" attrs p = Some p' ->
        main_container_depth p' = (main_container_depth p + 1)%Z).
Proof.
  intros H.
  specialize (H in_main_state (mkParser [] false [] 0 false true 1) main_attrs
                eq_refl eq_refl).
  discriminate H.
Qed.

(** C5 (amended): a div open whose class contains the container marker sets
    IN_MAIN_CONTAINER with depth 1, also when already inside (the depth is
    restarted); any other div open while IN_MAIN_CONTAINER increments the
    depth and one while OUTSIDE leaves the state alone; every div close while
    IN_MAIN_CONTAINER decrements the depth and at 0 returns to OUTSIDE. *)
Theorem C5_container_transitions (p : parser) (attrs : list (string * option string))
  (class_attr : string) :
  dict_get_class attrs (Some "") = Some class_attr ->
  exists p', handle_starttag "div" attrs p = Some p' /\
    (contains "tags_e5a45e" class_attr = true ->
     in_main_tags_container p' = true /\ main_container_depth p' = 1%Z) /\
    (contains "tags_e5a45e" class_attr = false -> in_main_tags_container p = true ->
     in_main_tags_container p' = true /\
     main_container_depth p' = (main_container_depth p + 1)%Z) /\
    (contains "tags_e5a45e" class_attr = false -> in_main_tags_container p = false ->
     in_main_tags_container p' = false /\
     main_container_depth p' = main_container_depth p) /\
    (in_main_tags_container p = true ->
     let q := handle_endtag "div" p in
     main_container_depth q = (main_container_depth p - 1)%Z /\
     (main_container_depth q = 0%Z -> in_main_tags_container q = false) /\
     (main_container_depth q <> 0%Z -> in_main_tags_container q = true)).
Proof.
  intros Hc. exists (div_open class_attr p).
  unfold handle_starttag. rewrite Hc. simpl.
  split; [reflexivity|].
  destruct p as [tg pill txt dd exp inm md]; simpl.
  unfold div_open; simpl.
  destruct (contains "tags_e5a45e" class_attr) eqn:Ht;
  destruct inm eqn:Hm;
  destruct (tag_class_search class_attr) eqn:Hs;
  destruct (contains "defaultColor__4bd52" class_attr) eqn:Hd;
  destruct pill eqn:Hp;
  simpl; repeat split; intros; try discriminate; try reflexivity;
  unfold handle_endtag in *; simpl in *;
  repeat match goal with
  | |- context [Z.eqb ?a ?b] => destruct (Z.eqb_spec a b)
  | H : context [Z.eqb ?a ?b] |- _ => destruct (Z.eqb_spec a b)
  end; simpl in *; try reflexivity; try lia; auto.
Qed.

Lemma C5_container_transitions_witness :
  exists p', handle_starttag "div" main_attrs in_main_state = Some p' /\
    in_main_tags_container p' = true /\ main_container_depth p' = 1%Z.
Proof.
  destruct (C5_container_transitions in_main_state main_attrs "tags_e5a45e" eq_refl)
    as [p' [Hp' [H1 _]]].
  exists p'. split; [exact Hp'|].
  exact (H1 eq_refl).
Defined.

Lemma mem_false_not_in (x : string) (l : list string) :
  mem x l = false -> ~ In x l.
Proof.
  unfold mem. intros H Hin.
  assert (existsb (String.eqb x) l = true) as Ht.
  { apply existsb_exists. exists x. split; [exact Hin|apply String.eqb_refl]. }
  congruence.
Qed.

Lemma NoDup_snoc_fresh (x : string) (l : list string) :
  NoDup l -> mem x l = false -> NoDup (l ++ [x])%list.
Proof.
  intros Hl Hm. apply mem_false_not_in in Hm.
  apply NoDup_app. split; [exact Hl|]. split; [|apply NoDup_singleton].
  intros y Hy Hy'. apply list_elem_of_singleton in Hy'. subst y.
  apply Hm. apply list_elem_of_In. exact Hy.
Qed.

Lemma step_nodup (e : event) (p p' : parser) :
  NoDup (tags p) -> step e p = Some p' -> NoDup (tags p').
Proof.
  intros Hn Hs. destruct e as [t a|t|d]; simpl in Hs.
  - unfold handle_starttag in Hs.
    destruct (String.eqb t "div").
    + destruct (dict_get_class a (Some "")); [|discriminate].
      injection Hs as <-. rewrite div_open_tags. exact Hn.
    + injection Hs as <-. exact Hn.
  - injection Hs as <-. unfold handle_endtag.
    destruct (String.eqb t "div"); [|exact Hn].
    destruct (in_main_tags_container p), (in_tag_pill p),
      (Z.eqb (div_depth p - 1) 0); simpl; try exact Hn;
      unfold finish_pill;
      destruct (mem (strip (join (current_tag_text p))) (tags p)) eqn:Hm;
      rewrite ?andb_false_r; simpl; try exact Hn;
      destruct (negb _ && negb _); try exact Hn;
      apply NoDup_snoc_fresh; assumption.
  - injection Hs as <-. unfold handle_data.
    destruct (in_tag_pill p); exact Hn.
Qed.

Lemma run_nodup (evs : list event) : forall (p p' : parser),
  NoDup (tags p) -> run p evs = Some p' -> NoDup (tags p').
Proof.
  induction evs as [|e r IH]; intros p p' Hn Hr; simpl in Hr.
  - injection Hr as <-. exact Hn.
  - destruct (step e p) as [q|] eqn:Hs; [|discriminate].
    apply (IH q p'); [apply (step_nodup e p q Hn Hs)|exact Hr].
Qed.

Lemma scan_nodup (evs : list event) (ts : list string) :
  scan evs = Some ts -> NoDup ts.
Proof.
  unfold scan. destruct (run init evs) as [p|] eqn:Hr; simpl; [|discriminate].
  intros [= <-]. apply (run_nodup evs init p); [constructor|exact Hr].
Qed.

End ScannerFacts.

(* ------------------------------------------------------------------ *)
(** ** [TagProcessor] *)

Module ProcessorFacts.
Import PyStr TagProcessor.

(** The dedup-append loop shared by [process] and [merge_tags]. *)
Definition dedup_step (acc : list string) (x : string) : list string :=
  if mem x acc then acc else (acc ++ [x])%list.

(** "Order-preserving dedup" read from the spec: each element is kept at
    its first occurrence, later copies are dropped. *)
Fixpoint dedup_first (l : list string) : list string :=
  match l with
  | [] => []
  | x :: r => x :: List.filter (fun y => negb (String.eqb y x)) (dedup_first r)
  end.

(** [process] as the spec describes it: drop excluded tags, substitute,
    then dedup keeping first occurrences. *)
Definition process_spec (tp : tag_processor) (tags : list string) : list string :=
  dedup_first
    (List.map (fun t => default t (replace_rules tp !! t))
       (List.filter (fun t => negb (bool_decide (t ∈ exclude_tags tp))) tags)).

Lemma filter_compose (f g : string -> bool) (l : list string) :
  List.filter f (List.filter g l) = List.filter (fun y => f y && g y) l.
Proof.
  induction l as [|x r IH]; simpl; [reflexivity|].
  destruct (g x); simpl; destruct (f x); simpl; rewrite IH; reflexivity.
Qed.

Lemma mem_app (y : string) (a b : list string) :
  mem y (a ++ b)%list = mem y a || mem y b.
Proof. unfold mem. apply existsb_app. Qed.

Lemma mem_single (y x : string) : mem y [x] = String.eqb y x.
Proof. unfold mem. simpl. apply orb_false_r. Qed.

Lemma fold_dedup (l : list string) : forall acc,
  fold_left dedup_step l acc =
  (acc ++ List.filter (fun y => negb (mem y acc)) (dedup_first l))%list.
Proof.
  induction l as [|x r IH]; intros acc.
  - simpl. rewrite app_nil_r. reflexivity.
  - cbn [fold_left dedup_first].
    change (dedup_step acc x) with (if mem x acc then acc else (acc ++ [x])%list).
    destruct (mem x acc) eqn:Hx.
    + rewrite IH. cbn [List.filter]. rewrite Hx. cbn [negb].
      rewrite filter_compose. f_equal.
      apply filter_ext. intros y.
      destruct (String.eqb_spec y x) as [->|_]; [rewrite Hx|]; simpl;
        rewrite ?andb_true_r, ?andb_false_r; reflexivity.
    + rewrite IH. cbn [List.filter]. rewrite Hx. cbn [negb].
      rewrite <- app_assoc. cbn [app]. f_equal. f_equal.
      rewrite filter_compose. apply filter_ext. intros y.
      rewrite mem_app, mem_single, negb_orb. reflexivity.
Qed.

Lemma fold_process_step (tp : tag_processor) (tags : list string) : forall acc,
  fold_left (process_step tp) tags acc =
  fold_left dedup_step
    (List.map (fun t => default t (replace_rules tp !! t))
       (List.filter (fun t => negb (bool_decide (t ∈ exclude_tags tp))) tags)) acc.
Proof.
  induction tags as [|t r IH]; intros acc; simpl; [reflexivity|].
  unfold process_step at 2.
  destruct (decide (t ∈ exclude_tags tp)) as [Hin|Hin].
  - rewrite bool_decide_true by exact Hin. simpl. apply IH.
  - rewrite bool_decide_false by exact Hin. simpl. apply IH.
Qed.

Lemma fold_dedup_nodup (l : list string) : forall acc,
  NoDup acc -> NoDup (fold_left dedup_step l acc).
Proof.
  induction l as [|x r IH]; intros acc Hn; simpl; [exact Hn|].
  apply IH. unfold dedup_step. destruct (mem x acc) eqn:Hm; [exact Hn|].
  apply ScannerFacts.NoDup_snoc_fresh; assumption.
Qed.

(** C7: [process] visits the tags in order, skips the excluded ones,
    substitutes through the replace map (identity when absent) and keeps a
    value only at its first occurrence; on the spec's example it gives
    ["a"; "z"]. *)
Theorem C7_process_is_filtered_dedup :
  (forall (tp : tag_processor) (tags : list string), process tp tags = process_spec tp tags)
  /\ process (make ["b"] (<["c" := "z"]> ∅)) ["a"; "b"; "c"] = ["a"; "z"].
Proof.
  split.
  - intros tp tags. unfold process, process_spec.
    rewrite fold_process_step, fold_dedup. simpl.
    induction (dedup_first _) as [|x r IH]; simpl; [reflexivity|].
    rewrite IH. reflexivity.
  - reflexivity.
Qed.

Lemma process_nodup (tp : tag_processor) (tags : list string) :
  NoDup (process tp tags).
Proof.
  unfold process. rewrite fold_process_step. apply fold_dedup_nodup. constructor.
Qed.

(** C6 (as stated): every tag list produced is duplicate-free, also for
    inputs with duplicates.  In 'replace' mode [merge_tags] returns the new
    list as it is. *)
Lemma C6_replace_keeps_duplicates :
  merge_tags [] ["a"; "a"] "replace" = ["a"; "a"] /\
  ~ NoDup (merge_tags [] ["a"; "a"] "replace").
Proof.
  split; [reflexivity|].
  simpl. intros Hn. apply NoDup_cons_1_1 in Hn. apply Hn. left.
Qed.

(** C6 (amended): the scanner's output and [process]'s output are always
    duplicate-free; [merge_tags] in 'merge' mode (any mode other than
    'replace') keeps [existing_tags] in order and appends each new tag not yet
    present, so its output is duplicate-free whenever [existing_tags] is;
    'replace' mode returns a copy of [new_tags], duplicates included. *)
Theorem C6_tag_lists_duplicate_free :
  (forall (evs : list Scanner.event) (ts : list string),
     Scanner.scan evs = Some ts -> NoDup ts) /\
  (forall (tp : tag_processor) (tags : list string), NoDup (process tp tags)) /\
  (forall (existing new : list string) (mode : string),
     mode <> "replace" -> NoDup existing ->
     NoDup (merge_tags existing new mode) /\
     merge_tags existing new mode =
       (existing ++ List.filter (fun y => negb (mem y existing)) (dedup_first new))%list) /\
  (forall (existing new : list string), merge_tags existing new "replace" = new).
Proof.
  split; [exact ScannerFacts.scan_nodup|].
  split; [exact process_nodup|].
  split.
  - intros existing new mode Hmode Hn. unfold merge_tags.
    destruct (String.eqb_spec mode "replace") as [E|_]; [contradiction|].
    split.
    + apply (fold_dedup_nodup new existing Hn).
    + apply (fold_dedup new existing).
  - intros existing new. reflexivity.
Qed.

Lemma C6_tag_lists_duplicate_free_witness :
  NoDup (merge_tags ["a"; "b"] ["b"; "c"; "c"] "merge") /\
  merge_tags ["a"; "b"] ["b"; "c"; "c"] "merge" = ["a"; "b"; "c"] /\
  (forall ts, Scanner.scan [] = Some ts -> NoDup ts).
Proof.
  destruct C6_tag_lists_duplicate_free as [Hscan [_ [Hmerge _]]].
  destruct (Hmerge ["a"; "b"] ["b"; "c"; "c"] "merge") as [H1 H2].
  - discriminate.
  - exact (ScannerFacts.NoDup_snoc_fresh "b" ["a"] (NoDup_singleton "a") eq_refl).
  - split; [exact H1|]. split; [reflexivity|]. exact (Hscan []).
Defined.

End ProcessorFacts.

(* ------------------------------------------------------------------ *)
(** ** [ForumTagFetcher] *)

Module FetcherFacts.
Import Fetcher.

(** C2: [is_valid_naobaijin_url] compares the lowercased netloc with
    [str.endswith]: a foreign host that merely ends in [naobaijin.app] is
    accepted, and the forum's own host with an explicit port is refused.
    This holds whatever the [ipaddress]/[unicodedata] checks do. *)
Theorem C2_url_check_is_suffix_match (chk nfkc : string -> bool) :
  urlparse_netloc chk nfkc "https://evilnaobaijin.app/t/1" = Some "evilnaobaijin.app" /\
  is_valid_naobaijin_url chk nfkc "https://evilnaobaijin.app/t/1" = true /\
  urlparse_netloc chk nfkc "https://naobaijin.app:443/t/1" = Some "naobaijin.app:443" /\
  is_valid_naobaijin_url chk nfkc "https://naobaijin.app:443/t/1" = false.
Proof. repeat split; reflexivity. Qed.

Definition attempt_tags (a : option (list string) * option string * option string) :=
  fst (fst a).
Definition attempt_title (a : option (list string) * option string * option string) :=
  snd (fst a).

Ltac split_attempts :=
  repeat match goal with
  | |- context [match try_fetch ?g ?h ?x ?u with _ => _ end] =>
      let E := fresh "E" in
      destruct (try_fetch g h x u) as [[[[|? ?]|] ?] ?] eqn:E
  end.

(** C3: for an accepted URL, [fetch_tags] strips trailing slashes, tries
    [url + "/0"] first and returns its tags and title when it found some;
    otherwise it tries the bare URL and returns its tags with its title, or
    the first attempt's title when that one is empty; when neither found
    tags it fails with the fixed not-found message and the title recovered
    first; a network failure of the first attempt still leads to the
    second. *)
Theorem C3_fetch_two_attempts (chk nfkc : string -> bool)
  (http_get : string -> http_result) (html_events : string -> list Scanner.event)
  (extract_title : string -> option string) (url : string) :
  is_valid_naobaijin_url chk nfkc url = true ->
  let u := rstrip_slash url in
  let u0 := String.append u "/0" in
  let a1 := try_fetch http_get html_events extract_title u0 in
  let a2 := try_fetch http_get html_events extract_title u in
  let r := fetch_tags chk nfkc http_get html_events extract_title url in
  snd r = (if truthy_tags (attempt_tags a1) then [u0] else [u0; u]) /\
  (forall ts, attempt_tags a1 = Some ts -> ts <> [] ->
     fst r = mkResult true ts None (attempt_title a1)) /\
  (truthy_tags (attempt_tags a1) = false ->
   forall ts, attempt_tags a2 = Some ts -> ts <> [] ->
     fst r = mkResult true ts None (py_or (attempt_title a2) (attempt_title a1))) /\
  (truthy_tags (attempt_tags a1) = false -> truthy_tags (attempt_tags a2) = false ->
     fst r = mkResult false [] (Some MSG_NOT_FOUND)
               (py_or (attempt_title a1) (attempt_title a2))) /\
  (forall msg, http_get u0 = HttpFailure msg -> snd r = [u0; u]).
Proof.
  intros Hv. cbv zeta. unfold fetch_tags. rewrite Hv. cbn [negb].
  unfold attempt_tags, attempt_title.
  split_attempts; simpl;
    repeat split; intros; simpl in *; try discriminate; try congruence;
    match goal with
    | H : http_get _ = HttpFailure _ |- _ =>
        unfold try_fetch in *; rewrite H in *; discriminate
    end.
Qed.

Definition no_network : string -> http_result := fun _ => HttpFailure "unreachable".

Lemma C3_fetch_two_attempts_witness :
  is_valid_naobaijin_url (fun _ => true) (fun _ => true)
    "https://naobaijin.app/t/123/" = true /\
  rstrip_slash "https://naobaijin.app/t/123/" = "https://naobaijin.app/t/123" /\
  snd (fetch_tags (fun _ => true) (fun _ => true) no_network (fun _ => [])
         (fun _ => None) "https://naobaijin.app/t/123/")
  = ["https://naobaijin.app/t/123/0"; "https://naobaijin.app/t/123"].
Proof.
  split; [reflexivity|]. split; [reflexivity|].
  destruct (C3_fetch_two_attempts (fun _ => true) (fun _ => true) no_network
              (fun _ => []) (fun _ => None) "https://naobaijin.app/t/123/" eq_refl)
    as [_ [_ [_ [_ H]]]].
  exact (H "unreachable" eq_refl).
Defined.

(** C8: a URL that fails validation gives the fixed invalid-URL result and
    no request is made. *)
Theorem C8_invalid_url_no_request (chk nfkc : string -> bool)
  (http_get : string -> http_result) (html_events : string -> list Scanner.event)
  (extract_title : string -> option string) (url : string) :
  is_valid_naobaijin_url chk nfkc url = false ->
  fetch_tags chk nfkc http_get html_events extract_title url =
    (mkResult false [] (Some MSG_INVALID_URL) None, []).
Proof. intros Hv. unfold fetch_tags. rewrite Hv. reflexivity. Qed.

Lemma C8_invalid_url_no_request_witness :
  fetch_tags (fun _ => true) (fun _ => true) no_network (fun _ => []) (fun _ => None)
    "https://example.com/t/1" =
  (mkResult false [] (Some MSG_INVALID_URL) None, []).
Proof.
  apply C8_invalid_url_no_request. reflexivity.
Defined.

(** C10: in every result of [fetch_tags], [success] holds exactly when the
    tag list is non-empty, a failure carries the empty list, and [error] is
    [None] exactly on success. *)
Theorem C10_result_invariant (chk nfkc : string -> bool)
  (http_get : string -> http_result) (html_events : string -> list Scanner.event)
  (extract_title : string -> option string) (url : string) :
  let r := fst (fetch_tags chk nfkc http_get html_events extract_title url) in
  (success r = true <-> rtags r <> []) /\
  (success r = true \/ rtags r = []) /\
  (error r = None <-> success r = true).
Proof.
  cbv zeta. unfold fetch_tags.
  destruct (is_valid_naobaijin_url chk nfkc url); cbn [negb];
    [| simpl; repeat split; intros; try congruence; auto].
  split_attempts; simpl; repeat split; intros; try congruence; auto.
Qed.

End FetcherFacts.

(* ------------------------------------------------------------------ *)
(** ** The automation hooks *)

Module AutomationFacts.
Import Automation.

(** Collaborators of one card whose ruleset evaluates to [acts]. *)
Definition sample_collab (acts : pyval) : collaborators :=
  mkCollab (Ok [("active_automation_ruleset", PStr "default")])
    (fun _ => Ok (PDict [("name", PStr "default")]))
    (fun _ => Ok (Some [("id", PStr "card-1")]))
    (Ok [])
    (fun k => Ok k)
    (fun _ _ _ => Ok (PDict [("actions", acts)]))
    (fun _ _ _ => Ok (PStr "applied")).

Definition fetch_action (v : pyval) : pyval :=
  PDict [("type", PStr "fetch_forum_tags"); ("value", v)].

(** C4: the link-update hook tests the configuration it extracted by
    truthiness, so a first [fetch_forum_tags] action whose value is not a
    dict (defaulted to [{}]) or is an empty dict yields the
    "no_fetch_forum_tags_action" result and the executor is never called;
    a non-empty dict value reaches the executor, alone in its plan. *)
Theorem C4_empty_fetch_config_skips_executor :
  auto_run_forum_tags_on_link_update (sample_collab (PList [fetch_action (PBool true)]))
    "fetch_forum_tags" "card-1" [] = (Ok (Some no_fetch_result), []) /\
  auto_run_forum_tags_on_link_update (sample_collab (PList [fetch_action (PDict [])]))
    "fetch_forum_tags" "card-1" [] = (Ok (Some no_fetch_result), []) /\
  auto_run_forum_tags_on_link_update
    (sample_collab (PList [PDict [("type", PStr "add_tag"); ("value", PStr "x")];
                           fetch_action (PDict [("exclude", PList [PStr "other"])]);
                           fetch_action (PDict [])]))
    "fetch_forum_tags" "card-1" [] =
  (Ok (Some (run_dict [("result", PStr "applied")])),
   [mkCall "card-1" (fetch_only_plan (PDict [("exclude", PList [PStr "other"])])) []]).
Proof. repeat split; reflexivity. Qed.

(** Collaborators whose configuration load is interrupted by the user
    ([KeyboardInterrupt] derives from [BaseException] only). *)
Definition KeyboardInterrupt : exn := Exn false (inl "KeyboardInterrupt").

Definition interrupted_collab : collaborators :=
  mkCollab (Raise KeyboardInterrupt) (fun _ => Ok PNone) (fun _ => Ok None) (Ok [])
    (fun k => Ok k) (fun _ _ _ => Ok PNone) (fun _ _ _ => Ok PNone).

(** C9 (as stated): neither hook ever raises.  [except Exception] lets a
    [KeyboardInterrupt] from a collaborator through. *)
Lemma C9_base_exception_escapes_hooks :
  fst (auto_run_rules_on_card interrupted_collab "card-1" []) = Raise KeyboardInterrupt /\
  fst (auto_run_forum_tags_on_link_update interrupted_collab "fetch_forum_tags" "card-1" [])
    = Raise KeyboardInterrupt.
Proof. split; reflexivity. Qed.

Definition raises_catchable {A} (r : result A) : Prop :=
  forall e, r = Raise e -> catchable e = true.

Definition M_catchable {A} (m : M A) : Prop :=
  forall st e st', m st = (Raise e, st') -> catchable e = true.

(** Every exception a collaborator raises derives from [Exception] and has
    a [str] that does not raise. *)
Definition collaborators_raise_catchable (c : collaborators) : Prop :=
  raises_catchable (load_config c) /\
  (forall x, raises_catchable (get_ruleset c x)) /\
  (forall k, raises_catchable (cache_get c k)) /\
  raises_catchable (load_ui_data c) /\
  (forall k, raises_catchable (resolve_ui_key c k)) /\
  (forall ctx rs b, raises_catchable (evaluate c ctx rs b)) /\
  (forall k pl ui, raises_catchable (apply_plan c k pl ui)).

Lemma ret_catchable {A} (a : A) : M_catchable (mret a).
Proof. intros st e st' H. discriminate H. Qed.

Lemma lift_catchable {A} (r : result A) : raises_catchable r -> M_catchable (lift r).
Proof. intros Hr st e st' H. injection H as He _. exact (Hr e He). Qed.

Lemma bind_catchable {A B} (m : M A) (f : A -> M B) :
  M_catchable m -> (forall a, M_catchable (f a)) -> M_catchable (m ≫= f).
Proof.
  intros Hm Hf st e st' H. cbv [mbind M_bind] in H.
  destruct (m st) as [[a|e0] st0] eqn:E.
  - exact (Hf a st0 e st' H).
  - injection H as <- _. exact (Hm st e0 st0 E).
Qed.

Lemma builtin_exceptions_catchable :
  catchable TypeError = true /\ catchable AttributeError = true /\
  (forall k, catchable (KeyError k) = true).
Proof. repeat split. Qed.

Lemma getitem_catchable (x : pyval) (k : string) : raises_catchable (py_getitem x k).
Proof.
  intros e H. destruct x as [| | | | |kv]; simpl in H; try (injection H as <-; reflexivity).
  destruct (dict_lookup kv k); [discriminate|]. injection H as <-. reflexivity.
Qed.

Lemma get_method_catchable (x : pyval) (k : string) (d : pyval) :
  raises_catchable (py_get_method x k d).
Proof. intros e H. destruct x; simpl in H; try discriminate; injection H as <-; reflexivity. Qed.

Lemma iter_catchable (x : pyval) : raises_catchable (py_iter x).
Proof. intros e H. destruct x; simpl in H; try discriminate; injection H as <-; reflexivity. Qed.

Lemma set_add_catchable (s : list pyval) (v : pyval) : raises_catchable (set_add s v).
Proof.
  intros e H. unfold set_add in H. destruct (hash_key v).
  - destruct (existsb _ s); discriminate.
  - injection H as <-. reflexivity.
Qed.

Lemma build_plan_catchable (acts : list pyval) : forall plan,
  raises_catchable (build_plan acts plan).
Proof.
  induction acts as [|act rest IH]; intros plan e H; simpl in H; [discriminate|].
  destruct (py_getitem act "type") as [t|e1] eqn:E1;
    [|injection H as <-; exact (getitem_catchable act "type" e1 E1)].
  destruct (py_getitem act "value") as [v|e2] eqn:E2;
    [|injection H as <-; exact (getitem_catchable act "value" e2 E2)].
  repeat match type of H with
  | context [if ?b then _ else _] => destruct b
  | context [match set_add ?s ?v with _ => _ end] =>
      let Es := fresh "Es" in destruct (set_add s v) eqn:Es
  end;
  first [ exact (IH _ e H)
        | injection H as <-; eapply set_add_catchable; eassumption ].
Qed.

Lemma find_fetch_config_catchable (ACT : string) (acts : list pyval) :
  raises_catchable (find_fetch_config ACT acts).
Proof.
  induction acts as [|act rest IH]; intros e H; simpl in H; [discriminate|].
  destruct (py_getitem act "type") as [t|e1] eqn:E1;
    [|injection H as <-; exact (getitem_catchable act "type" e1 E1)].
  destruct (eq_str t ACT); [|exact (IH e H)].
  destruct (py_getitem act "value") as [v|e2] eqn:E2; [discriminate|].
  injection H as <-. exact (getitem_catchable act "value" e2 E2).
Qed.

Ltac m_catchable :=
  repeat match goal with
  | |- M_catchable (mbind _ _) => apply bind_catchable; [|intros ?]
  | |- M_catchable (mret _) => apply ret_catchable
  | |- M_catchable (lift _) => apply lift_catchable
  | |- M_catchable (if ?b then _ else _) => destruct b
  | |- M_catchable (match ?x with _ => _ end) => destruct x
  end.

Lemma prepare_catchable (c : collaborators) (card_id : string) :
  collaborators_raise_catchable c -> M_catchable (prepare c card_id).
Proof.
  intros (H1 & H2 & H3 & H4 & H5 & H6 & H7). unfold prepare.
  m_catchable; auto using getitem_catchable, get_method_catchable.
Qed.

Lemma call_apply_plan_catchable (c : collaborators) k pl ui :
  collaborators_raise_catchable c -> M_catchable (call_apply_plan c k pl ui).
Proof.
  intros (_ & _ & _ & _ & _ & _ & H7) st e st' H. injection H as He _.
  exact (H7 k pl ui e He).
Qed.

Lemma rules_body_catchable (c : collaborators) (card_id : string) :
  collaborators_raise_catchable c -> M_catchable (rules_body c card_id).
Proof.
  intros Hc. unfold rules_body.
  apply bind_catchable; [apply prepare_catchable, Hc|intros pre].
  m_catchable;
    auto using iter_catchable, build_plan_catchable, call_apply_plan_catchable.
Qed.

Lemma link_body_catchable (c : collaborators) (ACT card_id : string) :
  collaborators_raise_catchable c -> M_catchable (link_body c ACT card_id).
Proof.
  intros Hc. unfold link_body.
  apply bind_catchable; [apply prepare_catchable, Hc|intros pre].
  m_catchable;
    auto using iter_catchable, find_fetch_config_catchable, call_apply_plan_catchable.
Qed.

Lemma try_except_none_ok {A} (body : M (option A)) (st : list exec_call) :
  M_catchable body ->
  exists r, fst (try_except_none body st) = Ok r /\
            (forall e, fst (body st) = Raise e -> r = None).
Proof.
  intros Hb. unfold try_except_none.
  destruct (body st) as [[a|e] st'] eqn:E; simpl.
  - exists a. split; [reflexivity|]. intros e' H'. discriminate H'.
  - pose proof (Hb st e st' E) as He. unfold catchable in He.
    destruct (exn_is_Exception e); [|discriminate].
    destruct (exn_str e); [|discriminate].
    exists None. split; reflexivity.
Qed.

(** C9 (amended): when every exception a collaborator raises derives from
    [Exception] and formats with [str] without raising, neither hook raises:
    every such exception, and every one of the hooks' own dictionary and
    iteration errors, is caught at the hook boundary and the hook returns
    [None]. *)
Theorem C9_hooks_catch_exceptions (c : collaborators) (ACT card_id : string)
  (st : list exec_call) :
  collaborators_raise_catchable c ->
  (exists r, fst (auto_run_rules_on_card c card_id st) = Ok r /\
             (forall e, fst (rules_body c card_id st) = Raise e -> r = None)) /\
  (exists r, fst (auto_run_forum_tags_on_link_update c ACT card_id st) = Ok r /\
             (forall e, fst (link_body c ACT card_id st) = Raise e -> r = None)).
Proof.
  intros Hc. split.
  - apply try_except_none_ok, rules_body_catchable, Hc.
  - apply try_except_none_ok, link_body_catchable, Hc.
Qed.

(** Collaborators whose rule evaluation fails with a [ValueError]. *)
Definition failing_collab : collaborators :=
  mkCollab (Ok [("active_automation_ruleset", PStr "default")])
    (fun _ => Ok (PDict [("name", PStr "default")]))
    (fun _ => Ok (Some [("id", PStr "card-1")]))
    (Ok [])
    (fun k => Ok k)
    (fun _ _ _ => Raise (Exn true (inl "ValueError")))
    (fun _ _ _ => Ok PNone).

Lemma C9_hooks_catch_exceptions_witness :
  fst (auto_run_rules_on_card failing_collab "card-1" []) = Ok None /\
  fst (auto_run_forum_tags_on_link_update failing_collab "fetch_forum_tags" "card-1" [])
    = Ok None.
Proof.
  assert (Hc : collaborators_raise_catchable failing_collab).
  { repeat split; intros; intros e He; simpl in He;
      try discriminate; injection He as <-; reflexivity. }
  destruct (C9_hooks_catch_exceptions failing_collab "fetch_forum_tags" "card-1" [] Hc)
    as [[r1 [E1 N1]] [r2 [E2 N2]]].
  rewrite E1, E2.
  rewrite (N1 (Exn true (inl "ValueError")) eq_refl),
          (N2 (Exn true (inl "ValueError")) eq_refl).
  split; reflexivity.
Defined.

End AutomationFacts.

(* ------------------------------------------------------------------ *)
(** ** Further properties of the scanner *)

Module StringFacts.
Import PyStr.

Definition first_char_space (s : string) : bool :=
  match s with String c _ => is_space c | EmptyString => false end.

Definition last_char_space (s : string) : bool := first_char_space (rev_str s EmptyString).

Lemma append_assoc (a b d : string) :
  String.append (String.append a b) d = String.append a (String.append b d).
Proof.
  induction a as [|c a IH]; [reflexivity|].
  change (String c (String.append (String.append a b) d) =
          String c (String.append a (String.append b d))).
  rewrite IH. reflexivity.
Qed.

Lemma rev_str_acc (s acc : string) :
  rev_str s acc = String.append (rev_str s EmptyString) acc.
Proof.
  revert acc. induction s as [|c s IH]; intros acc; simpl; [reflexivity|].
  rewrite (IH (String c acc)), (IH (String c EmptyString)).
  rewrite append_assoc. reflexivity.
Qed.

Lemma rev_str_app (a b acc : string) :
  rev_str (String.append a b) acc = rev_str b (rev_str a acc).
Proof.
  revert acc. induction a as [|c a IH]; intros acc; simpl; [reflexivity|]. apply IH.
Qed.

Lemma rev_rev (s : string) : rev_str (rev_str s EmptyString) EmptyString = s.
Proof.
  induction s as [|c s IH]; simpl; [reflexivity|].
  rewrite (rev_str_acc s (String c EmptyString)), rev_str_app. simpl.
  rewrite IH. reflexivity.
Qed.

Lemma lstrip_no_lead (s : string) : first_char_space (lstrip s) = false.
Proof.
  induction s as [|c s IH]; simpl; [reflexivity|].
  destruct (is_space c) eqn:E; [exact IH|]. simpl. exact E.
Qed.

Lemma lstrip_split (s : string) : exists w, s = String.append w (lstrip s).
Proof.
  induction s as [|c s [w IH]]; simpl.
  - exists EmptyString. reflexivity.
  - destruct (is_space c).
    + exists (String c w).
      change (String c s = String c (String.append w (lstrip s))).
      rewrite <- IH. reflexivity.
    + exists EmptyString. reflexivity.
Qed.

(** [str.strip()] leaves no whitespace at either end. *)
Lemma strip_ends (s : string) :
  first_char_space (strip s) = false /\ last_char_space (strip s) = false.
Proof.
  unfold strip, last_char_space. set (u := lstrip s).
  set (v := lstrip (rev_str u EmptyString)).
  split.
  - destruct (lstrip_split (rev_str u EmptyString)) as [w Hw]. fold v in Hw.
    assert (Hu : u = String.append (rev_str v EmptyString) (rev_str w EmptyString)).
    { rewrite <- (rev_rev u), Hw, rev_str_app, (rev_str_acc v). reflexivity. }
    pose proof (lstrip_no_lead s) as Hs. fold u in Hs.
    destruct (rev_str v EmptyString) as [|c r]; [reflexivity|].
    rewrite Hu in Hs. exact Hs.
  - rewrite rev_rev. apply lstrip_no_lead.
Qed.

End StringFacts.

Module ScannerMore.
Import PyStr Scanner StringFacts.

(** A tag as [handle_endtag] admits it: non-empty, not a [+N] count, with
    no whitespace at either end. *)
Definition tag_wf (t : string) : Prop :=
  t <> "" /\ startswith "+" t = false /\
  first_char_space t = false /\ last_char_space t = false.

Lemma finish_pill_wf (p : parser) :
  Forall tag_wf (tags p) -> Forall tag_wf (finish_pill p).
Proof.
  intros H. unfold finish_pill.
  set (t := strip (join (current_tag_text p))).
  destruct (String.eqb_spec t "") as [E|E]; simpl; [exact H|].
  destruct (startswith "+" t) eqn:Hp; simpl; [exact H|].
  destruct (mem t (tags p)); simpl; [exact H|].
  apply Forall_app. split; [exact H|]. constructor; [|constructor].
  destruct (strip_ends (join (current_tag_text p))) as [H1 H2].
  repeat split; assumption.
Qed.

Lemma step_wf (e : event) (p p' : parser) :
  Forall tag_wf (tags p) -> step e p = Some p' -> Forall tag_wf (tags p').
Proof.
  intros Hn Hs. destruct e as [t a|t|d]; simpl in Hs.
  - unfold handle_starttag in Hs.
    destruct (String.eqb t "div").
    + destruct (dict_get_class a (Some "")); [|discriminate].
      injection Hs as <-. rewrite ScannerFacts.div_open_tags. exact Hn.
    + injection Hs as <-. exact Hn.
  - injection Hs as <-. unfold handle_endtag.
    destruct (String.eqb t "div"); [|exact Hn].
    destruct (in_main_tags_container p), (in_tag_pill p),
      (Z.eqb (div_depth p - 1) 0); simpl; try exact Hn; apply finish_pill_wf, Hn.
  - injection Hs as <-. unfold handle_data. destruct (in_tag_pill p); exact Hn.
Qed.

Lemma run_wf (evs : list event) : forall (p p' : parser),
  Forall tag_wf (tags p) -> run p evs = Some p' -> Forall tag_wf (tags p').
Proof.
  induction evs as [|e r IH]; intros p p' Hn Hr; simpl in Hr.
  - injection Hr as <-. exact Hn.
  - destruct (step e p) as [q|] eqn:Hs; [|discriminate].
    exact (IH q p' (step_wf e p q Hn Hs) Hr).
Qed.

Lemma scan_wf (evs : list event) (ts : list string) :
  scan evs = Some ts -> Forall tag_wf ts.
Proof.
  unfold scan. destruct (run init evs) as [p|] eqn:Hr; simpl; [|discriminate].
  intros [= <-]. exact (run_wf evs init p (List.Forall_nil _) Hr).
Qed.

(** Every tag the scanner returns is non-empty, does not start with "+",
    has no leading or trailing whitespace, and occurs once. *)
Theorem scan_tags_trimmed_unique (evs : list event) (ts : list string) :
  scan evs = Some ts -> NoDup ts /\ Forall tag_wf ts.
Proof.
  intros H. split; [exact (ScannerFacts.scan_nodup evs ts H)|exact (scan_wf evs ts H)].
Qed.

Definition sample_doc : list event :=
  [StartTag "div" [("class", Some "tags_e5a45e")];
   StartTag "div" [("class", Some "pill_a2c9e8 small_a2c9e8")]; Data "  tag  ";
   EndTag "div";
   StartTag "div" [("class", Some "pill_a2c9e8 small_a2c9e8")]; Data "tag";
   EndTag "div";
   EndTag "div"].

Lemma scan_tags_trimmed_unique_witness :
  scan sample_doc = Some ["tag"] /\ NoDup ["tag"] /\ Forall tag_wf ["tag"].
Proof.
  split; [reflexivity|]. exact (scan_tags_trimmed_unique sample_doc ["tag"] eq_refl).
Defined.







Lemma run_none_iff (evs : list event) : forall p : parser,
  run p evs = None <->
  exists attrs, In (StartTag "div" attrs) evs /\ dict_get_class attrs (Some "") = None.
Proof.
  induction evs as [|e r IH]; intros p; simpl.
  - split; [discriminate|]. intros [a [[] _]].
  - destruct e as [t a|t|d]; simpl.
    + unfold handle_starttag. destruct (String.eqb_spec t "div") as [->|Ht].
      * destruct (dict_get_class a (Some "")) as [cls|] eqn:Hc.
        -- rewrite IH. split.
           ++ intros [a' [Hin Ha']]. exists a'. auto.
           ++ intros [a' [[Heq|Hin] Ha']]; [|exists a'; auto].
              injection Heq as <-. congruence.
        -- split; [intros _; exists a; auto|reflexivity].
      * rewrite IH. split.
        -- intros [a' [Hin Ha']]. exists a'. auto.
        -- intros [a' [[Heq|Hin] Ha']]; [congruence|exists a'; auto].
    + rewrite IH. split.
      * intros [a' [Hin Ha']]. exists a'. auto.
      * intros [a' [[Heq|Hin] Ha']]; [discriminate|exists a'; auto].
    + rewrite IH. split.
      * intros [a' [Hin Ha']]. exists a'. auto.
      * intros [a' [[Heq|Hin] Ha']]; [discriminate|exists a'; auto].
Qed.

(** Feeding a document raises (and the tags are lost) exactly when one of
    its div start tags has a [class] attribute without a value as its last
    [class] binding; any other markup is scanned to the end. *)
Theorem scan_raises_iff_valueless_class (evs : list event) :
  scan evs = None <->
  exists attrs, In (StartTag "div" attrs) evs /\ dict_get_class attrs (Some "") = None.
Proof.
  unfold scan. rewrite <- (run_none_iff evs init).
  destruct (run init evs); simpl; split; intros H; congruence.
Qed.




End ScannerMore.

Module FetcherMore.
Import PyStr Fetcher StringFacts.

Ltac split_fetches :=
  repeat match goal with
  | |- context [match try_fetch ?g ?h ?x ?u with _ => _ end] =>
      let E := fresh "E" in
      destruct (try_fetch g h x u) as [[[[|? ?]|] ?] ?] eqn:E
  end.

Lemma try_fetch_tags (http_get : string -> http_result)
  (html_events : string -> list Scanner.event) (extract_title : string -> option string)
  (u : string) (ts : list string) :
  fst (fst (try_fetch http_get html_events extract_title u)) = Some ts ->
  ts <> [] /\ NoDup ts /\ Forall ScannerMore.tag_wf ts.
Proof.
  unfold try_fetch. destruct (http_get u) as [[m|] text|m]; simpl; try discriminate.
  destruct (Scanner.scan (html_events text)) as [l|] eqn:Hs; simpl; [|discriminate].
  destruct l as [|x l]; simpl; [discriminate|]. intros [= <-].
  split; [discriminate|].
  split; [exact (ScannerFacts.scan_nodup _ _ Hs)|exact (ScannerMore.scan_wf _ _ Hs)].
Qed.

(** [_try_fetch] reports no error exactly when it found a non-empty tag
    list; with an error it returns no tags; the tags it returns are
    distinct, non-empty, trimmed and never a "+N" count. *)
Theorem try_fetch_outcome (http_get : string -> http_result)
  (html_events : string -> list Scanner.event) (extract_title : string -> option string)
  (url : string) :
  let a := try_fetch http_get html_events extract_title url in
  (snd a = None <-> truthy_tags (fst (fst a)) = true) /\
  (snd a <> None -> fst (fst a) = None) /\
  (forall ts, fst (fst a) = Some ts -> ts <> [] /\ NoDup ts /\ Forall ScannerMore.tag_wf ts).
Proof.
  cbv zeta. split; [|split; [|apply try_fetch_tags]];
    unfold try_fetch; destruct (http_get url) as [[m|] text|m]; simpl;
    try (destruct (Scanner.scan (html_events text)) as [[|x l]|]; simpl);
    first [ split; intros H; first [discriminate H | reflexivity]
          | intros H; first [reflexivity | exfalso; apply H; reflexivity] ].
Qed.

(** The tags [fetch_tags] returns are distinct, non-empty, trimmed and
    never a "+N" count, whatever the network answers. *)
Theorem fetch_tags_wf (chk nfkc : string -> bool)
  (http_get : string -> http_result) (html_events : string -> list Scanner.event)
  (extract_title : string -> option string) (url : string) :
  let r := fst (fetch_tags chk nfkc http_get html_events extract_title url) in
  NoDup (rtags r) /\ Forall ScannerMore.tag_wf (rtags r).
Proof.
  cbv zeta. unfold fetch_tags.
  destruct (is_valid_naobaijin_url chk nfkc url); cbn [negb];
    [|simpl; split; constructor].
  split_fetches; simpl;
    repeat match goal with
    | E : try_fetch _ _ _ _ = (Some _, _, _) |- _ =>
        let H := fresh "H" in
        pose proof (f_equal (fun a => fst (fst a)) E) as H; simpl in H;
        apply try_fetch_tags in H; destruct H as [_ [? ?]]; clear E
    end;
    split; first [assumption | constructor].
Qed.

Lemma prefix_trans (a b d : string) :
  String.prefix a b = true -> String.prefix b d = true -> String.prefix a d = true.
Proof.
  revert b d. induction a as [|x a IH]; intros b d H1 H2; [destruct d; reflexivity|].
  destruct b as [|y b]; [discriminate|]. destruct d as [|z d]; [discriminate|].
  simpl in *. destruct (ascii_dec x y) as [<-|]; [|discriminate].
  destruct (ascii_dec x z) as [<-|]; [|discriminate]. exact (IH b d H1 H2).
Qed.

(** An accepted URL has a netloc whose lowercase form ends with
    "naobaijin.app" (so it is not empty): both listed domains end so, and a
    URL without an authority part is refused. *)
Theorem valid_url_netloc (chk nfkc : string -> bool) (url : string) :
  is_valid_naobaijin_url chk nfkc url = true ->
  exists netloc, urlparse_netloc chk nfkc url = Some netloc /\
    endswith "naobaijin.app" (lower netloc) = true /\ netloc <> "".
Proof.
  unfold is_valid_naobaijin_url.
  destruct (String.eqb url ""); [discriminate|].
  destruct (urlparse_netloc chk nfkc url) as [n|]; [|discriminate].
  intros H. exists n. split; [reflexivity|].
  assert (Hend : endswith "naobaijin.app" (lower n) = true).
  { cbn [existsb NAOBAIJIN_DOMAINS] in H. rewrite orb_false_r in H.
    apply orb_true_iff in H. destruct H as [H|H]; [exact H|].
    unfold endswith in *. eapply prefix_trans; [|exact H]. reflexivity. }
  split; [exact Hend|]. intros ->. discriminate Hend.
Qed.

Lemma valid_url_netloc_witness :
  is_valid_naobaijin_url (fun _ => true) (fun _ => true) "https://www.naobaijin.app/t/1" = true /\
  exists netloc, urlparse_netloc (fun _ => true) (fun _ => true)
      "https://www.naobaijin.app/t/1" = Some netloc /\
    endswith "naobaijin.app" (lower netloc) = true /\ netloc <> "".
Proof.
  split; [reflexivity|]. apply valid_url_netloc. reflexivity.
Defined.

Lemma drop_slashes_split (s : string) :
  exists w, s = String.append w (drop_slashes s) /\
    Forall (fun x => x = "/"%char) (list_ascii_of_string w) /\
    String.prefix "/" (drop_slashes s) = false.
Proof.
  induction s as [|c s [w [Hw [Hf Hp]]]].
  - exists EmptyString. repeat split. constructor.
  - simpl. destruct (Ascii.eqb_spec c "/") as [->|Hc].
    + exists (String "/" w). split; [|split; [constructor; auto|exact Hp]].
      change (String "/" s = String "/" (String.append w (drop_slashes s))).
      rewrite <- Hw. reflexivity.
    + exists EmptyString. split; [reflexivity|]. split; [constructor|].
      change (String.prefix "/" (String c s))
        with (if ascii_dec "/" c then String.prefix "" s else false).
      destruct (ascii_dec "/" c); [congruence|reflexivity].
Qed.

Lemma drop_slashes_fixed (s : string) :
  String.prefix "/" s = false -> drop_slashes s = s.
Proof.
  destruct s as [|c s]; [reflexivity|].
  change (String.prefix "/" (String c s))
    with (if ascii_dec "/" c then String.prefix "" s else false).
  destruct (ascii_dec "/" c) as [<-|Hc]; [intros H; destruct s; discriminate H|]. intros _. simpl.
  destruct (Ascii.eqb_spec c "/"); [congruence|reflexivity].
Qed.

Lemma list_rev_str (s acc : string) :
  list_ascii_of_string (rev_str s acc) =
  (rev (list_ascii_of_string s) ++ list_ascii_of_string acc)%list.
Proof.
  revert acc. induction s as [|c s IH]; intros acc; [reflexivity|].
  simpl. rewrite IH. rewrite <- app_assoc. reflexivity.
Qed.

(** [url.rstrip('/')] removes exactly the trailing slashes: the result no
    longer ends with "/", only slashes were cut, and stripping again
    changes nothing. *)
Theorem rstrip_slash_spec (url : string) :
  let u := rstrip_slash url in
  endswith "/" u = false /\ rstrip_slash u = u /\
  exists w, url = String.append u w /\
    Forall (fun x => x = "/"%char) (list_ascii_of_string w).
Proof.
  cbv zeta. unfold rstrip_slash.
  destruct (drop_slashes_split (rev_str url EmptyString)) as [w [Hw [Hf Hp]]].
  set (d := drop_slashes (rev_str url EmptyString)) in *.
  split; [|split].
  - unfold endswith. rewrite rev_rev. exact Hp.
  - rewrite rev_rev, drop_slashes_fixed by exact Hp. reflexivity.
  - exists (rev_str w EmptyString). split.
    + rewrite <- (rev_rev url) at 1. rewrite Hw, rev_str_app, rev_str_acc. reflexivity.
    + rewrite list_rev_str. simpl. rewrite app_nil_r. apply Forall_rev. exact Hf.
Qed.

End FetcherMore.

Module TitleFacts.
Import PyStr Fetcher Title StringFacts.

Lemma lstrip_suffix (s : string) :
  exists w, list_ascii_of_string s = (w ++ list_ascii_of_string (lstrip s))%list.
Proof.
  induction s as [|c s [w IH]]; simpl.
  - exists []. reflexivity.
  - destruct (is_space c).
    + exists (c :: w). simpl. rewrite <- IH. reflexivity.
    + exists []. reflexivity.
Qed.

Lemma Forall_lstrip (P : ascii -> Prop) (s : string) :
  Forall P (list_ascii_of_string s) -> Forall P (list_ascii_of_string (lstrip s)).
Proof.
  intros H. destruct (lstrip_suffix s) as [w Hw]. rewrite Hw in H.
  apply Forall_app in H. apply H.
Qed.

Lemma Forall_rev_str (P : ascii -> Prop) (s : string) :
  Forall P (list_ascii_of_string s) ->
  Forall P (list_ascii_of_string (rev_str s EmptyString)).
Proof.
  intros H. rewrite FetcherMore.list_rev_str. simpl. rewrite app_nil_r.
  apply Forall_rev, H.
Qed.

Lemma Forall_strip (P : ascii -> Prop) (s : string) :
  Forall P (list_ascii_of_string s) -> Forall P (list_ascii_of_string (strip s)).
Proof.
  intros H. unfold strip. apply Forall_rev_str, Forall_lstrip, Forall_rev_str, Forall_lstrip, H.
Qed.

Lemma sub_tags_plain (s : string) :
  Forall (fun x => x <> "<"%char) (list_ascii_of_string s) -> sub_tags_aux None s = s.
Proof.
  induction s as [|c s IH]; intros H; [reflexivity|].
  inversion H as [|? ? Hc Hs]; subst. simpl.
  destruct (Ascii.eqb_spec c "<"); [contradiction|]. rewrite IH by exact Hs. reflexivity.
Qed.

Lemma replace_absent (a : ascii) (o n s : string) :
  Forall (fun x => x <> a) (list_ascii_of_string s) -> replace_aux (String a o) n 0 s = s.
Proof.
  induction s as [|c s IH]; intros H; [reflexivity|].
  inversion H as [|? ? Hc Hs]; subst.
  change (replace_aux (String a o) n 0 (String c s)) with
    (if String.prefix (String a o) (String c s)
     then String.append n (replace_aux (String a o) n (String.length (String a o) - 1) s)
     else String c (replace_aux (String a o) n 0 s)).
  change (String.prefix (String a o) (String c s))
    with (if ascii_dec a c then String.prefix o s else false).
  destruct (ascii_dec a c) as [->|_]; [contradiction|]. rewrite IH by exact Hs. reflexivity.
Qed.

(** A captured title with no "<" and no "&" is only stripped of
    surrounding whitespace: the tag removal and the entity replacements
    leave it unchanged. *)
Theorem clean_plain_title (g : string) :
  Forall (fun x => x <> "<"%char /\ x <> "&"%char) (list_ascii_of_string g) ->
  clean g = strip g.
Proof.
  intros H. pose proof (Forall_strip _ g H) as Hs.
  unfold clean, sub_tags.
  rewrite sub_tags_plain by (eapply List.Forall_impl; [|exact Hs]; intros x [? ?]; assumption).
  assert (Ha : Forall (fun x => x <> "&"%char) (list_ascii_of_string (strip g)))
    by (eapply List.Forall_impl; [|exact Hs]; intros x [? ?]; assumption).
  unfold replace. do 4 rewrite (replace_absent "&" _ _ (strip g) Ha). reflexivity.
Qed.

Lemma clean_plain_title_witness :
  Forall (fun x => x <> "<"%char /\ x <> "&"%char) (list_ascii_of_string "  Hello  ") /\
  clean "  Hello  " = "Hello".
Proof.
  assert (H : Forall (fun x => x <> "<"%char /\ x <> "&"%char)
                (list_ascii_of_string "  Hello  ")).
  { repeat constructor; discriminate. }
  split; [exact H|]. rewrite (clean_plain_title "  Hello  " H). reflexivity.
Defined.

Lemma first_title_spec (re_search : title_pattern -> string -> option string)
  (pats : list title_pattern) (html t : string) :
  first_title re_search pats html = Some t ->
  t <> "" /\ exists p g, In p pats /\ re_search p html = Some g /\ clean g = t.
Proof.
  induction pats as [|p rest IH]; simpl; [discriminate|].
  destruct (re_search p html) as [g|] eqn:Hg.
  - destruct (String.eqb_spec (clean g) "") as [E|E].
    + intros H. destruct (IH H) as [Ht [p' [g' [Hin Hr]]]].
      split; [exact Ht|]. exists p', g'. auto.
    + intros [= <-]. split; [exact E|]. exists p, g. auto.
  - intros H. destruct (IH H) as [Ht [p' [g' [Hin Hr]]]].
    split; [exact Ht|]. exists p', g'. auto.
Qed.

(** [_extract_title] returns either [None] or a non-empty title, the
    cleaned first group of one of its three patterns that matched. *)
Theorem extract_title_result (re_search : title_pattern -> string -> option string)
  (html t : string) :
  extract_title re_search html = Some t ->
  t <> "" /\ exists p g, In p patterns /\ re_search p html = Some g /\ clean g = t.
Proof. apply first_title_spec. Qed.

Definition sample_search (p : title_pattern) (_ : string) : option string :=
  match p with PTitle => Some " <b></b> " | PMetaOgTitle => None | PH1 => Some " Post " end.

Lemma extract_title_result_witness :
  extract_title sample_search "" = Some "Post" /\ "Post" <> "" /\
  exists p g, In p patterns /\ sample_search p "" = Some g /\ clean g = "Post".
Proof.
  split; [reflexivity|]. apply extract_title_result. reflexivity.
Defined.

Lemma try_fetch_title (http_get : string -> http_result)
  (html_events : string -> list Scanner.event) (re_search : title_pattern -> string -> option string)
  (u : string) :
  snd (fst (try_fetch http_get html_events (extract_title re_search) u)) <> Some "".
Proof.
  unfold try_fetch. destruct (http_get u) as [[m|] text|m]; simpl; try discriminate.
  destruct (Scanner.scan (html_events text)) as [[|x l]|]; simpl; try discriminate;
    intros H; apply (extract_title_result re_search text "") in H; apply H; reflexivity.
Qed.

Lemma py_or_nonempty (a b : option string) :
  a <> Some "" -> b <> Some "" -> py_or a b <> Some "".
Proof.
  intros Ha Hb. destruct a as [s|]; simpl; [|exact Hb].
  destruct (String.eqb_spec s ""); [exact Hb|exact Ha].
Qed.

(** With the title extractor of the fetcher, the [title] of a
    [fetch_tags] result is never the empty string: it is [None] or a
    non-empty title, also when it is chosen with [or] between the two
    attempts. *)
Theorem fetch_title_nonempty (chk nfkc : string -> bool)
  (http_get : string -> http_result) (html_events : string -> list Scanner.event)
  (re_search : title_pattern -> string -> option string) (url : string) :
  title (fst (fetch_tags chk nfkc http_get html_events (extract_title re_search) url))
    <> Some "".
Proof.
  unfold fetch_tags.
  destruct (is_valid_naobaijin_url chk nfkc url); cbn [negb]; [|simpl; discriminate].
  FetcherMore.split_fetches; simpl;
    repeat match goal with
    | E : try_fetch _ _ _ ?u = (_, _, _) |- _ =>
        let H := fresh "H" in
        pose proof (try_fetch_title http_get html_events re_search u) as H;
        rewrite E in H; simpl in H; clear E
    end;
    first [assumption | apply py_or_nonempty; assumption].
Qed.

End TitleFacts.

Module ProcessorMore.
Import PyStr TagProcessor ProcessorFacts.

Lemma mem_true_iff (x : string) (l : list string) : mem x l = true <-> In x l.
Proof.
  unfold mem. rewrite existsb_exists. split.
  - intros [y [Hy E]]. apply String.eqb_eq in E. subst. exact Hy.
  - intros Hx. exists x. split; [exact Hx|apply String.eqb_refl].
Qed.

Lemma dedup_first_in (l : list string) (y : string) : In y (dedup_first l) <-> In y l.
Proof.
  induction l as [|x r IH]; simpl; [reflexivity|].
  rewrite filter_In, IH. destruct (String.eqb_spec y x) as [->|Hne]; simpl.
  - split; auto.
  - split; [intros [H|[H _]]; auto|intros [H|H]; auto].
Qed.

Lemma fold_dedup_in (l acc : list string) (y : string) :
  In y (fold_left dedup_step l acc) <-> In y acc \/ In y l.
Proof.
  rewrite fold_dedup, in_app_iff, filter_In, dedup_first_in.
  destruct (mem y acc) eqn:Hm; simpl.
  - apply mem_true_iff in Hm. split; [intros [H|[H _]]; auto|intros _; auto].
  - split; [intros [H|[H _]]; auto|intros [H|H]; auto].
Qed.

(** A value is in the output of [process] exactly when it is the
    replacement (or the tag itself when no rule applies) of some input tag
    that is not excluded.  In particular an excluded tag only appears when
    a rule maps another tag onto it. *)
Theorem process_members (tp : tag_processor) (tags : list string) (y : string) :
  In y (process tp tags) <->
  exists t, In t tags /\ (t ∉ exclude_tags tp) /\ y = default t (replace_rules tp !! t).
Proof.
  unfold process. rewrite fold_process_step, fold_dedup_in. simpl.
  rewrite in_map_iff. split.
  - intros [[]|[t [<- Ht]]]. apply filter_In in Ht. destruct Ht as [Hin Hx].
    exists t. split; [exact Hin|]. split; [|reflexivity].
    apply negb_true_iff, bool_decide_eq_false in Hx. exact Hx.
  - intros [t [Hin [Hx ->]]]. right. exists t. split; [reflexivity|].
    apply filter_In. split; [exact Hin|]. rewrite bool_decide_false by exact Hx. reflexivity.
Qed.

Lemma filter_all_false (f : string -> bool) (l : list string) :
  (forall y, In y l -> f y = false) -> List.filter f l = [].
Proof.
  induction l as [|x r IH]; intros H; simpl; [reflexivity|].
  rewrite (H x (or_introl eq_refl)). apply IH. intros y Hy. apply H. right. exact Hy.
Qed.

(** In 'merge' mode (any mode other than 'replace') the merged list holds
    exactly the existing and the new tags, and merging the same new tags a
    second time changes nothing. *)
Theorem merge_members_idempotent (existing new : list string) (mode : string) :
  mode <> "replace" ->
  (forall x, In x (merge_tags existing new mode) <-> In x existing \/ In x new) /\
  merge_tags (merge_tags existing new mode) new mode = merge_tags existing new mode.
Proof.
  intros Hmode. unfold merge_tags.
  destruct (String.eqb_spec mode "replace") as [E|_]; [contradiction|].
  change (fold_left (fun merged tag => if mem tag merged then merged else (merged ++ [tag])%list)
            new existing) with (fold_left dedup_step new existing).
  change (fold_left (fun merged tag => if mem tag merged then merged else (merged ++ [tag])%list)
            new (fold_left dedup_step new existing))
    with (fold_left dedup_step new (fold_left dedup_step new existing)).
  split; [intros x; apply fold_dedup_in|].
  rewrite (fold_dedup new (fold_left dedup_step new existing)).
  rewrite filter_all_false; [apply app_nil_r|].
  intros y Hy. rewrite dedup_first_in in Hy. apply negb_false_iff, mem_true_iff.
  apply fold_dedup_in. right. exact Hy.
Qed.

Lemma merge_members_idempotent_witness :
  merge_tags (merge_tags ["a"] ["b"; "a"] "merge") ["b"; "a"] "merge" = ["a"; "b"] /\
  ((forall x, In x (merge_tags ["a"] ["b"; "a"] "merge") <-> In x ["a"] \/ In x ["b"; "a"]) /\
   merge_tags (merge_tags ["a"] ["b"; "a"] "merge") ["b"; "a"] "merge" =
   merge_tags ["a"] ["b"; "a"] "merge").
Proof.
  split; [reflexivity|]. apply merge_members_idempotent. discriminate.
Defined.

End ProcessorMore.

Module AutomationMore.
Import Automation.

(** The value the last action of type [ty] gives through [f], [dflt] when
    there is none; an action without a type or value is passed over. *)
Fixpoint last_action_value (ty : string) (f : pyval -> pyval) (acts : list pyval)
  (dflt : pyval) : pyval :=
  match acts with
  | [] => dflt
  | act :: rest =>
      last_action_value ty f rest
        (match py_getitem act "type", py_getitem act "value" with
         | Ok t, Ok v => if eq_str t ty then f v else dflt
         | _, _ => dflt
         end)
  end.

(** A Python set: no two elements are equal as hashable values. *)
Definition hash_distinct (s : list pyval) : Prop := NoDup (map hash_key s).

(** Preconditions under which both hooks return before evaluating the
    rules: no truthy active ruleset id, a falsy ruleset, or a card absent
    from the cache (or empty). *)
Definition early_exit (c : collaborators) (card_id : string) : Prop :=
  exists cfg, load_config c = Ok cfg /\
  (truthy (dict_get cfg "active_automation_ruleset" PNone) = false \/
   exists rs, get_ruleset c (dict_get cfg "active_automation_ruleset" PNone) = Ok rs /\
     (truthy rs = false \/ cache_get c card_id = Ok None \/
      cache_get c card_id = Ok (Some []))).

Ltac run_m H :=
  cbv [mbind M_bind mret M_ret lift call_apply_plan] in H;
  repeat match type of H with
  | context [match ?x with _ => _ end] =>
      let E := fresh "E" in destruct x eqn:E
  end.

Lemma prepare_trace (c : collaborators) (card_id : string) st r st' :
  prepare c card_id st = (r, st') ->
  st' = st /\ (forall acts ui, r = Ok (Some (acts, ui)) -> load_ui_data c = Ok ui).
Proof.
  intros H. unfold prepare in H. run_m H;
    injection H as <- <-; split; try reflexivity; intros acts ui Hr; try discriminate Hr;
    injection Hr as _ <-; first [reflexivity | assumption].
Qed.

Lemma prepare_early (c : collaborators) (card_id : string) st :
  early_exit c card_id -> prepare c card_id st = (Ok None, st).
Proof.
  intros [cfg [Hc Hor]]. unfold prepare. cbv [mbind M_bind mret M_ret lift].
  rewrite Hc. destruct Hor as [Ha|[rs [Hr Hor]]]; [rewrite Ha; reflexivity|].
  destruct (truthy (dict_get cfg "active_automation_ruleset" PNone)); [|reflexivity].
  simpl. rewrite Hr. destruct Hor as [Hf|[Hn|Hn]]; [rewrite Hf; reflexivity| |];
    destruct (truthy rs); try reflexivity; simpl; rewrite Hn; reflexivity.
Qed.

(** Both hooks return [None] and call no executor when automation is off
    (no truthy active ruleset id), when the ruleset is falsy, or when the
    card is not in the cache or is empty. *)
Theorem hooks_early_exit (c : collaborators) (ACT card_id : string) st :
  early_exit c card_id ->
  auto_run_rules_on_card c card_id st = (Ok None, st) /\
  auto_run_forum_tags_on_link_update c ACT card_id st = (Ok None, st).
Proof.
  intros He. pose proof (prepare_early c card_id st He) as Hp.
  unfold auto_run_rules_on_card, auto_run_forum_tags_on_link_update, try_except_none,
    rules_body, link_body.
  cbv [mbind M_bind]. rewrite Hp. split; reflexivity.
Qed.

Definition missing_card_collab : collaborators :=
  mkCollab (Ok [("active_automation_ruleset", PStr "default")])
    (fun _ => Ok (PDict [("name", PStr "default")]))
    (fun _ => Ok None) (Ok [])
    (fun k => Ok k)
    (fun _ _ _ => Ok (PDict [("actions", PList [])]))
    (fun _ _ _ => Ok (PStr "applied")).

Lemma hooks_early_exit_witness :
  early_exit missing_card_collab "card-9" /\
  auto_run_rules_on_card missing_card_collab "card-9" [] = (Ok None, []) /\
  auto_run_forum_tags_on_link_update missing_card_collab "fetch_forum_tags" "card-9" []
    = (Ok None, []).
Proof.
  assert (He : early_exit missing_card_collab "card-9").
  { exists [("active_automation_ruleset", PStr "default")]. split; [reflexivity|].
    right. exists (PDict [("name", PStr "default")]). split; [reflexivity|].
    right. left. reflexivity. }
  split; [exact He|]. exact (hooks_early_exit missing_card_collab "fetch_forum_tags" "card-9" [] He).
Defined.

Lemma set_add_distinct (s : list pyval) (v : pyval) (s' : list pyval) :
  set_add s v = Ok s' -> hash_distinct s -> hash_distinct s'.
Proof.
  unfold set_add, hash_distinct. destruct (hash_key v) as [k|] eqn:Hv; [|discriminate].
  destruct (existsb _ s) eqn:Hex; intros H Hd; injection H as <-; [exact Hd|].
  rewrite map_app. simpl. rewrite Hv.
  apply NoDup_app. split; [exact Hd|]. split; [|apply NoDup_singleton].
  intros y Hy Hy'. apply list_elem_of_singleton in Hy'. subst y.
  apply list_elem_of_In, in_map_iff in Hy. destruct Hy as [x [Hx Hin]].
  assert (Ht : existsb (fun y => if decide (hash_key y = Some k) then true else false) s = true).
  { apply existsb_exists. exists x. split; [exact Hin|]. rewrite decide_True by exact Hx.
    reflexivity. }
  congruence.
Qed.

Lemma build_plan_props (acts : list pyval) : forall plan p,
  build_plan acts plan = Ok p ->
  move p = last_action_value "move_folder" (fun v => v) acts (move plan) /\
  favorite p = last_action_value "set_favorite" (fun v => PBool (str_lower_is_true v))
                 acts (favorite plan) /\
  fetch_forum_tags p = fetch_forum_tags plan /\
  (hash_distinct (add_tags plan) -> hash_distinct (add_tags p)) /\
  (hash_distinct (remove_tags plan) -> hash_distinct (remove_tags p)).
Proof.
  induction acts as [|act rest IH]; intros plan p H; simpl in H |- *.
  - injection H as <-. repeat split; auto.
  - destruct (py_getitem act "type") as [t|e] eqn:Et; [|discriminate].
    destruct (py_getitem act "value") as [v|e] eqn:Ev; [|discriminate].
    revert H. destruct t as [| | | s | |]; simpl; try (intros H; exact (IH plan p H)).
    destruct (String.eqb_spec s "move_folder") as [->|N1]; simpl.
    { intros H. destruct (IH _ _ H) as (H1 & H2 & H3 & H4 & H5). simpl in *.
      repeat split; auto. }
    destruct (String.eqb_spec s "add_tag") as [->|N2]; simpl.
    { destruct (set_add (add_tags plan) v) as [s'|e] eqn:Es; [|discriminate].
      intros H. destruct (IH _ _ H) as (H1 & H2 & H3 & H4 & H5). simpl in *.
      repeat split; auto. intros Hd. apply H4. exact (set_add_distinct _ _ _ Es Hd). }
    destruct (String.eqb_spec s "remove_tag") as [->|N3]; simpl.
    { destruct (set_add (remove_tags plan) v) as [s'|e] eqn:Es; [|discriminate].
      intros H. destruct (IH _ _ H) as (H1 & H2 & H3 & H4 & H5). simpl in *.
      repeat split; auto. intros Hd. apply H5. exact (set_add_distinct _ _ _ Es Hd). }
    destruct (String.eqb_spec s "set_favorite") as [->|N4]; simpl.
    { intros H. destruct (IH _ _ H) as (H1 & H2 & H3 & H4 & H5). simpl in *.
      repeat split; auto. }
    intros H. exact (IH plan p H).
Qed.

(** The plan the rules hook builds from the actions: [move] is the value
    of the last [move_folder] action, [favorite] whether [str(v).lower()]
    of the last [set_favorite] value is 'true' ([None] without such
    actions), [fetch_forum_tags] is never set, and the tag sets hold no
    two equal values. *)
Theorem build_plan_fields (acts : list pyval) (p : exec_plan) :
  build_plan acts empty_plan = Ok p ->
  move p = last_action_value "move_folder" (fun v => v) acts PNone /\
  favorite p = last_action_value "set_favorite" (fun v => PBool (str_lower_is_true v)) acts PNone /\
  fetch_forum_tags p = PNone /\ hash_distinct (add_tags p) /\ hash_distinct (remove_tags p).
Proof.
  intros H. destruct (build_plan_props acts empty_plan p H) as (H1 & H2 & H3 & H4 & H5).
  repeat split; auto; [apply H4|apply H5]; constructor.
Qed.

Definition act (t : string) (v : pyval) : pyval := PDict [("type", PStr t); ("value", v)].

Definition sample_actions : list pyval :=
  [act "move_folder" (PStr "A"); act "set_favorite" (PStr "TRUE");
   act "add_tag" (PInt 1); act "add_tag" (PBool true); act "move_folder" (PStr "B")].

Lemma build_plan_fields_witness :
  exists p, build_plan sample_actions empty_plan = Ok p /\
    move p = PStr "B" /\ favorite p = PBool true /\ add_tags p = [PInt 1] /\
    (move p = last_action_value "move_folder" (fun v => v) sample_actions PNone /\
     favorite p = last_action_value "set_favorite" (fun v => PBool (str_lower_is_true v))
                    sample_actions PNone /\
     fetch_forum_tags p = PNone /\ hash_distinct (add_tags p) /\
     hash_distinct (remove_tags p)).
Proof.
  eexists. split; [reflexivity|]. split; [reflexivity|]. split; [reflexivity|].
  split; [reflexivity|]. apply build_plan_fields. reflexivity.
Defined.

Lemma try_except_none_trace {A} (body : M (option A)) st r st' :
  try_except_none body st = (r, st') -> snd (body st) = st'.
Proof.
  unfold try_except_none. destruct (body st) as [[a|e] s0].
  - intros H. injection H as _ <-. reflexivity.
  - destruct (exn_is_Exception e); [destruct (exn_str e)|];
      intros H; injection H as _ <-; reflexivity.
Qed.

(** The rules hook calls the executor at most once, for this card, with
    the loaded UI data and a plan that never asks for forum tags; it makes
    no other change to the trace. *)
Theorem rules_hook_single_call (c : collaborators) (card_id : string) st r st' :
  auto_run_rules_on_card c card_id st = (r, st') ->
  st' = st \/
  exists plan ui, st' = (st ++ [mkCall card_id plan ui])%list /\
    load_ui_data c = Ok ui /\ fetch_forum_tags plan = PNone.
Proof.
  intros H. apply try_except_none_trace in H. unfold rules_body in H.
  cbv [mbind M_bind] in H.
  destruct (prepare c card_id st) as [pre s0] eqn:Ep.
  destruct (prepare_trace c card_id st pre s0 Ep) as [-> Hui].
  destruct pre as [[[actions ui]|]|e]; simpl in H; [|left; symmetry; exact H..].
  specialize (Hui actions ui eq_refl).
  cbv [mret M_ret lift call_apply_plan] in H.
  destruct (negb (truthy actions)); [left; symmetry; exact H|].
  destruct (py_iter actions) as [acts|e]; simpl in H; [|left; symmetry; exact H].
  destruct (build_plan acts empty_plan) as [p|e] eqn:Eb; simpl in H;
    [|left; symmetry; exact H].
  right. exists p, ui. split; [|split; [exact Hui|]].
  - destruct (apply_plan c card_id p ui); simpl in H; symmetry; exact H.
  - exact (proj1 (proj2 (proj2 (build_plan_fields acts p Eb)))).
Qed.

Definition tagging_collab (acts : pyval) : collaborators :=
  mkCollab (Ok [("active_automation_ruleset", PStr "default")])
    (fun _ => Ok (PDict [("name", PStr "default")]))
    (fun _ => Ok (Some [("id", PStr "card-1")]))
    (Ok [("card-1", PDict [("summary", PStr "s")])])
    (fun k => Ok k)
    (fun _ _ _ => Ok (PDict [("actions", acts)]))
    (fun _ _ _ => Ok (PStr "applied")).

Lemma rules_hook_single_call_witness :
  exists r st', auto_run_rules_on_card (tagging_collab (PList sample_actions)) "card-1" [] = (r, st') /\
    length st' = 1%nat /\
    (st' = [] \/
     exists plan ui, st' = ([] ++ [mkCall "card-1" plan ui])%list /\
       load_ui_data (tagging_collab (PList sample_actions)) = Ok ui /\
       fetch_forum_tags plan = PNone).
Proof.
  eexists. eexists. split; [reflexivity|]. split; [reflexivity|].
  eapply (rules_hook_single_call (tagging_collab (PList sample_actions)) "card-1" []).
  reflexivity.
Defined.

Lemma find_fetch_config_dict (ACT : string) (acts : list pyval) (v : pyval) :
  find_fetch_config ACT acts = Ok (Some v) -> is_dict v = true.
Proof.
  induction acts as [|a rest IH]; simpl; [discriminate|].
  destruct (py_getitem a "type") as [t|e]; [|discriminate].
  destruct (eq_str t ACT); [|exact IH].
  destruct (py_getitem a "value") as [w|e]; [|discriminate].
  intros H. injection H as <-. destruct (is_dict w) eqn:Hw; [exact Hw|reflexivity].
Qed.

(** The link-update hook calls the executor at most once, for this card,
    with the loaded UI data and a plan that only carries a non-empty dict
    as its forum-tags configuration: it never moves, tags or favourites the
    card. *)
Theorem link_hook_single_call (c : collaborators) (ACT card_id : string) st r st' :
  auto_run_forum_tags_on_link_update c ACT card_id st = (r, st') ->
  st' = st \/
  exists kv ui, kv <> [] /\ load_ui_data c = Ok ui /\
    st' = (st ++ [mkCall card_id (fetch_only_plan (PDict kv)) ui])%list.
Proof.
  intros H. apply try_except_none_trace in H. unfold link_body in H.
  cbv [mbind M_bind] in H.
  destruct (prepare c card_id st) as [pre s0] eqn:Ep.
  destruct (prepare_trace c card_id st pre s0 Ep) as [-> Hui].
  destruct pre as [[[actions ui]|]|e]; simpl in H; [|left; symmetry; exact H..].
  specialize (Hui actions ui eq_refl).
  cbv [mret M_ret lift call_apply_plan] in H.
  destruct (negb (truthy actions)); [left; symmetry; exact H|].
  destruct (py_iter actions) as [acts|e]; simpl in H; [|left; symmetry; exact H].
  destruct (find_fetch_config ACT acts) as [[v|]|e] eqn:Ef; simpl in H;
    [|left; symmetry; exact H|left; symmetry; exact H].
  destruct (truthy v) eqn:Ht; simpl in H; [|left; symmetry; exact H].
  pose proof (find_fetch_config_dict ACT acts v Ef) as Hd.
  destruct v as [| | | | |kv]; try discriminate Hd.
  right. exists kv, ui. split; [destruct kv; [discriminate Ht|discriminate]|].
  split; [exact Hui|].
  destruct (apply_plan c card_id (fetch_only_plan (PDict kv)) ui); simpl in H;
    symmetry; exact H.
Qed.

Lemma link_hook_single_call_witness :
  exists r st',
    auto_run_forum_tags_on_link_update
      (tagging_collab (PList [act "fetch_forum_tags" (PDict [("mode", PStr "merge")])]))
      "fetch_forum_tags" "card-1" [] = (r, st') /\
    length st' = 1%nat /\
    (st' = [] \/
     exists kv ui, kv <> [] /\
       load_ui_data (tagging_collab
         (PList [act "fetch_forum_tags" (PDict [("mode", PStr "merge")])])) = Ok ui /\
       st' = ([] ++ [mkCall "card-1" (fetch_only_plan (PDict kv)) ui])%list).
Proof.
  eexists. eexists. split; [reflexivity|]. split; [reflexivity|].
  eapply (link_hook_single_call
           (tagging_collab (PList [act "fetch_forum_tags" (PDict [("mode", PStr "merge")])]))
           "fetch_forum_tags" "card-1" []).
  reflexivity.
Defined.

End AutomationMore.
